(** * pelf: the shared-library closure bundler (lib4bin-style Go tool)

    A shallow embedding of the Go program that classifies each input
    binary as static or dynamic, copies it into an output tree together
    with the launcher [sharun] and the shared libraries it needs.

    The program is a sequence of file-system calls, so the embedding is
    a state-and-error monad over a small model of a POSIX file system:
    a finite map from canonical paths to nodes (regular files,
    directories, symbolic links), with the kernel's path walk written
    out.  External tools (ldd, strip, the u-root ldd package, the PATH
    search) are the fields of a type class. *)

From Stdlib Require Import ZArith Ascii String List Lia.
From Stdlib.Strings Require Import Byte.
From stdpp Require Import base option gmap strings list.

Local Open Scope string_scope.
Local Open Scope Z_scope.

(** ** Strings and paths: the parts of Go's [strings], [path/filepath]
    and [os] packages the program calls *)

Module GoPath.

Definition slash : ascii := "/"%char.

Definition is_slash (c : ascii) : bool := bool_decide (c = slash).

(** Components of a path between separators ([strings.Split(p, "/")]):
    [split "/a//b" = [""; "a"; ""; "b"]]. *)
Fixpoint split_aux (cur : string) (s : string) : list string :=
  match s with
  | EmptyString => [String.rev cur]
  | String c s' =>
      if is_slash c then String.rev cur :: split_aux EmptyString s'
      else split_aux (String c cur) s'
  end.

Definition split (s : string) : list string := split_aux EmptyString s.

Definition is_abs (s : string) : bool :=
  match s with
  | String c _ => is_slash c
  | EmptyString => false
  end.

(** [strings.Join(elems, "/")]. *)
Fixpoint join_slash (l : list string) : string :=
  match l with
  | [] => ""
  | [x] => x
  | x :: r => x +:+ "/" +:+ join_slash r
  end.

(** The element stack of [filepath.Clean], innermost element first:
    empty and [.] elements are dropped, [..] removes the element before
    it, is dropped at the root of a rooted path and kept at the start of
    a relative one. *)
Fixpoint clean_elems (rooted : bool) (out : list string) (l : list string)
  : list string :=
  match l with
  | [] => out
  | c :: r =>
      if bool_decide (c = "") || bool_decide (c = ".") then
        clean_elems rooted out r
      else if bool_decide (c = "..") then
        match out with
        | top :: out' =>
            if bool_decide (top = "..") then clean_elems rooted (c :: out) r
            else clean_elems rooted out' r
        | [] =>
            if rooted then clean_elems rooted out r
            else clean_elems rooted (c :: out) r
        end
      else clean_elems rooted (c :: out) r
  end.

(** [filepath.Clean]. *)
Definition Clean (p : string) : string :=
  if bool_decide (p = "") then "."
  else
    let rooted := is_abs p in
    let body := join_slash (rev (clean_elems rooted [] (split p))) in
    if rooted then "/" +:+ body
    else if bool_decide (body = "") then "." else body.

(** [filepath.Join]: leading empty elements are ignored, the rest is
    joined with separators and cleaned; all empty gives the empty
    string. *)
Fixpoint Join (elem : list string) : string :=
  match elem with
  | [] => ""
  | e :: r => if bool_decide (e = "") then Join r else Clean (join_slash elem)
  end.

Fixpoint drop_slashes (l : list ascii) : list ascii :=
  match l with
  | c :: r => if is_slash c then drop_slashes r else l
  | [] => []
  end.

Fixpoint take_name (l : list ascii) : list ascii :=
  match l with
  | c :: r => if is_slash c then [] else c :: take_name r
  | [] => []
  end.

(** [filepath.Base]: the last element of the path, trailing separators
    removed first; [.] for the empty path, [/] for a path of separators
    only. *)
Definition Base (p : string) : string :=
  if bool_decide (p = "") then "."
  else
    let r := drop_slashes (rev (list_ascii_of_string p)) in
    match r with
    | [] => "/"
    | _ => string_of_list_ascii (rev (take_name r))
    end.

(** The unexported [basename] of package [os], which names the
    [FileInfo] that [os.Stat] returns: trailing separators are removed
    (but a first character is always kept), then the leading directory
    name. *)
Definition basename (name : string) : string :=
  match list_ascii_of_string name with
  | [] => ""
  | c0 :: rest =>
      match drop_slashes (rev rest) with
      | [] => string_of_list_ascii [c0]
      | r =>
          let nm := take_name r in
          if Nat.eqb (length nm) (length r) then
            (* no separator in the tail: the first character decides *)
            if is_slash c0 then string_of_list_ascii (rev nm)
            else string_of_list_ascii (c0 :: rev nm)
          else string_of_list_ascii (rev nm)
      end
  end.

(** A path without its trailing separators, as the kernel reads the
    name given to [mkdir]. *)
Definition trim_trailing_slashes (p : string) : string :=
  match list_ascii_of_string p with
  | [] => ""
  | c0 :: rest => string_of_list_ascii (c0 :: rev (drop_slashes (rev rest)))
  end.

End GoPath.

(** ** Package [strings] *)

Module GoStrings.

(** ASCII white space, the part of [unicode.IsSpace] that a one-byte
    character can be: tab, line feed, vertical tab, form feed, carriage
    return and space. *)
Definition is_space (c : ascii) : bool :=
  let n := nat_of_ascii c in
  ((9 <=? n)%nat && (n <=? 13)%nat) || (n =? 32)%nat.

Fixpoint trim_left (s : string) : string :=
  match s with
  | String c s' => if is_space c then trim_left s' else s
  | EmptyString => EmptyString
  end.

(** [strings.TrimSpace]. *)
Definition TrimSpace (s : string) : string :=
  String.rev (trim_left (String.rev (trim_left s))).

Definition lower_ascii (c : ascii) : ascii :=
  let n := nat_of_ascii c in
  if ((65 <=? n)%nat && (n <=? 90)%nat) then ascii_of_nat (n + 32) else c.

(** [strings.ToLower] on the ASCII letters. *)
Fixpoint ToLower (s : string) : string :=
  match s with
  | String c s' => String (lower_ascii c) (ToLower s')
  | EmptyString => EmptyString
  end.

(** [strings.Contains]. *)
Fixpoint Contains (s substr : string) : bool :=
  String.prefix substr s ||
  match s with
  | String _ s' => Contains s' substr
  | EmptyString => false
  end.

End GoStrings.

(** ** Errors *)

Inductive errno := ENOENT | ENOTDIR | EISDIR | EEXIST | ELOOP.

Definition errno_string (e : errno) : string :=
  match e with
  | ENOENT => "no such file or directory"
  | ENOTDIR => "not a directory"
  | EISDIR => "is a directory"
  | EEXIST => "file exists"
  | ELOOP => "too many levels of symbolic links"
  end.

(** Go [error] values: [*fs.PathError] and [*os.LinkError] of package
    [os], the errors made by [fmt.Errorf], and the errors of an external
    command or library, known by their text only. *)
Inductive error :=
  | PathError (op path : string) (e : errno)
  | LinkError (op old new : string) (e : errno)
  | Errorf (msg : string)
  | ExternalError (msg : string).

(** The [Error()] method. *)
Definition Error (e : error) : string :=
  match e with
  | PathError op p no => op +:+ " " +:+ p +:+ ": " +:+ errno_string no
  | LinkError op o n no =>
      op +:+ " " +:+ o +:+ " " +:+ n +:+ ": " +:+ errno_string no
  | Errorf msg => msg
  | ExternalError msg => msg
  end.

Inductive res (A : Type) :=
  | Ok (a : A)
  | Err (e : error).
Arguments Ok {A} a.
Arguments Err {A} e.

Definition is_Err {A} (r : res A) : bool :=
  match r with Err _ => true | Ok _ => false end.

(** ** The file system *)

(** A canonical path: the names from the root down to a node, innermost
    first, so [["bin"; "output"; "work"]] is [/work/output/bin] and [[]]
    is the root. *)
Abbreviation cpath := (list string).

Inductive node :=
  | File (data : list byte) (perm : Z)
  | Dir (perm : Z)
  | Symlink (target : string).

(** Successful calls that change the file system, and runs of an
    external tool that may, in the order made. *)
Inductive event :=
  | EvMkdir (c : cpath)
  | EvWriteFile (c : cpath) (data : list byte)
  | EvChmod (c : cpath) (perm : Z)
  | EvSymlink (c : cpath) (target : string)
  | EvRun (tool arg : string).

Record World := mkWorld {
  fs : gmap cpath node;
  trace : list event;
  stdout : list string;
  stderr : list string
}.

Definition with_fs (w : World) (m : gmap cpath node) (ev : event) : World :=
  {| fs := m; trace := trace w ++ [ev];
     stdout := stdout w; stderr := stderr w |}.

Definition is_empty_name (c : string) : bool :=
  bool_decide (c = "") || bool_decide (c = ".").

Inductive walk_res :=
  | Found (c : cpath) (n : node)
  | Absent (c : cpath)
  | WalkErr (e : errno).

(** The kernel's path walk from directory [cur] along the components
    [rest].  [Found c n]: the path names the node [n] at [c].
    [Absent c]: every component but the last names a directory and the
    last names nothing: [c] is where a new node would go.  A symbolic
    link in the middle of a path is always followed, one at the end when
    [follow] is set; [fuel] counts the links that may still be followed
    (Linux gives up after 40 with ELOOP). *)
Fixpoint walk (fuel : nat) (m : gmap cpath node) (follow : bool)
    (cur : cpath) (rest : list string) {struct fuel} : walk_res :=
  (fix go (cur : cpath) (rest : list string) {struct rest} : walk_res :=
     match rest with
     | [] =>
         match m !! cur with
         | Some n => Found cur n
         | None => WalkErr ENOENT
         end
     | c :: r =>
         if is_empty_name c then go cur r
         else if bool_decide (c = "..") then go (tail cur) r
         else
           match m !! (c :: cur) with
           | None =>
               match r with
               | [] => Absent (c :: cur)
               | _ => WalkErr ENOENT
               end
           | Some (Dir _) => go (c :: cur) r
           | Some (File d p) =>
               match r with
               | [] => Found (c :: cur) (File d p)
               | _ => WalkErr ENOTDIR
               end
           | Some (Symlink t) =>
               if bool_decide (r = []) && negb follow
               then Found (c :: cur) (Symlink t)
               else
                 match fuel with
                 | O => WalkErr ELOOP
                 | S f =>
                     if bool_decide (t = "") then WalkErr ENOENT
                     else walk f m follow
                            (if GoPath.is_abs t then [] else cur)
                            (GoPath.split t ++ r)
                 end
           end
     end) cur rest.

Definition MAXSYMLINKS : nat := 40.

(** Resolution of a path name given to a system call by a process whose
    working directory is [cwd]. *)
Definition resolve (m : gmap cpath node) (cwd : cpath) (follow : bool)
    (name : string) : walk_res :=
  if bool_decide (name = "") then WalkErr ENOENT
  else
    let start := if GoPath.is_abs name then [] else cwd in
    match m !! start with
    | Some (Dir _) => walk MAXSYMLINKS m follow start (GoPath.split name)
    | Some _ => WalkErr ENOTDIR
    | None => WalkErr ENOENT
    end.

(** ** The host: process attributes and external collaborators *)

Class Host := {
  (** working directory and file mode creation mask of the process *)
  cwd : cpath;
  umask : Z;
  (** [exec.LookPath(file)] *)
  exec_LookPath : string -> World -> res string;
  (** [exec.Command("ldd", path).CombinedOutput()]: the text printed and
      the error, if the command could not be run or did not exit with 0 *)
  ldd_CombinedOutput : string -> World -> string * option error;
  (** [exec.Command(stripPath, filePath).Run()]: the file system the
      tool leaves behind, and the error if it could not be run or did
      not exit with 0 *)
  strip_Run : string -> string -> World -> gmap cpath node * option error;
  (** [ldd.FList(path)] of the u-root package *)
  ldd_FList : string -> World -> res (list string)
}.

(** ** A state-and-error monad for Go's [if err != nil { return err }] *)

Definition M (A : Type) : Type := World -> World * res A.

Definition ret {A} (a : A) : M A := fun w => (w, Ok a).

Definition raise {A} (e : error) : M A := fun w => (w, Err e).

Definition bind {A B} (c : M A) (k : A -> M B) : M B :=
  fun w =>
    match c w with
    | (w', Ok a) => k a w'
    | (w', Err e) => (w', Err e)
    end.

Notation "'do' x <- c ; k" := (bind c (fun x => k))
  (at level 10, x name, c at level 100, k at level 200).

(** ** Package [os] over the model *)

Section Program.

Context `{H : Host}.

(** Permission bits in octal: [0755], [0644], [0777]. *)
Definition o755 : Z := 493.
Definition o644 : Z := 420.
Definition o777 : Z := 511.

(** The mode of a node created with [perm]: the bits in the process's
    umask are cleared. *)
Definition creation_mode (perm : Z) : Z := Z.land perm (Z.lnot umask).

Record FileInfo := mkFileInfo {
  Name : string;
  fi_node : node
}.

Definition IsRegular (fi : FileInfo) : bool :=
  match fi_node fi with File _ _ => true | _ => false end.

Definition IsDir (fi : FileInfo) : bool :=
  match fi_node fi with Dir _ => true | _ => false end.

(** The permission bits of [fi.Mode()]; those of a symbolic link are
    [0777]. *)
Definition Perm (fi : FileInfo) : Z :=
  match fi_node fi with
  | File _ p => p
  | Dir p => p
  | Symlink _ => o777
  end.

(** [os.Stat] (links followed) and [os.Lstat] (a final link is not
    followed). *)
Definition stat_with (follow : bool) (op : string) (name : string)
  : M FileInfo :=
  fun w =>
    match resolve (fs w) cwd follow name with
    | Found _ n => (w, Ok (mkFileInfo (GoPath.basename name) n))
    | Absent _ => (w, Err (PathError op name ENOENT))
    | WalkErr e => (w, Err (PathError op name e))
    end.

Definition os_Stat (name : string) : M FileInfo := stat_with true "stat" name.
Definition os_Lstat (name : string) : M FileInfo := stat_with false "lstat" name.

(** [os.ReadFile]. *)
Definition os_ReadFile (name : string) : M (list byte) :=
  fun w =>
    match resolve (fs w) cwd true name with
    | Found _ (File d _) => (w, Ok d)
    | Found _ (Dir _) => (w, Err (PathError "read" name EISDIR))
    | Found _ (Symlink _) => (w, Err (PathError "open" name ELOOP))
    | Absent _ => (w, Err (PathError "open" name ENOENT))
    | WalkErr e => (w, Err (PathError "open" name e))
    end.

(** [os.WriteFile]: the file is opened with O_WRONLY|O_CREATE|O_TRUNC.
    An existing file gets the new contents and keeps its mode; a
    missing one is created with [perm] less the umask; a final symbolic
    link is followed, also to a file that does not exist yet. *)
Definition os_WriteFile (name : string) (data : list byte) (perm : Z)
  : M unit :=
  fun w =>
    match resolve (fs w) cwd true name with
    | Found c (File _ p) =>
        (with_fs w (<[c := File data p]> (fs w)) (EvWriteFile c data), Ok tt)
    | Found _ (Dir _) => (w, Err (PathError "open" name EISDIR))
    | Found _ (Symlink _) => (w, Err (PathError "open" name ELOOP))
    | Absent c =>
        (with_fs w (<[c := File data (creation_mode perm)]> (fs w))
           (EvWriteFile c data), Ok tt)
    | WalkErr e => (w, Err (PathError "open" name e))
    end.

(** [os.Chmod]: links are followed; the permission bits are set as
    given, the umask plays no part. *)
Definition os_Chmod (name : string) (mode : Z) : M unit :=
  fun w =>
    let p := Z.land mode o777 in
    match resolve (fs w) cwd true name with
    | Found c (File d _) =>
        (with_fs w (<[c := File d p]> (fs w)) (EvChmod c p), Ok tt)
    | Found c (Dir _) =>
        (with_fs w (<[c := Dir p]> (fs w)) (EvChmod c p), Ok tt)
    | Found _ (Symlink _) => (w, Err (PathError "chmod" name ELOOP))
    | Absent _ => (w, Err (PathError "chmod" name ENOENT))
    | WalkErr e => (w, Err (PathError "chmod" name e))
    end.

(** [os.Symlink(oldname, newname)]: fails with EEXIST when anything,
    a symbolic link included, is at [newname]. *)
Definition os_Symlink (oldname newname : string) : M unit :=
  fun w =>
    if bool_decide (oldname = "")
    then (w, Err (LinkError "symlink" oldname newname ENOENT))
    else
      match resolve (fs w) cwd false newname with
      | Found _ _ => (w, Err (LinkError "symlink" oldname newname EEXIST))
      | Absent c =>
          (with_fs w (<[c := Symlink oldname]> (fs w)) (EvSymlink c oldname),
           Ok tt)
      | WalkErr e => (w, Err (LinkError "symlink" oldname newname e))
      end.

(** [os.Mkdir]: one directory; trailing separators of the name do not
    count. *)
Definition os_Mkdir (name : string) (perm : Z) : M unit :=
  fun w =>
    match resolve (fs w) cwd false (GoPath.trim_trailing_slashes name) with
    | Found _ _ => (w, Err (PathError "mkdir" name EEXIST))
    | Absent c =>
        (with_fs w (<[c := Dir (creation_mode perm)]> (fs w)) (EvMkdir c),
         Ok tt)
    | WalkErr e => (w, Err (PathError "mkdir" name e))
    end.

(** The parent that [os.MkdirAll] recurses on: [path] without its
    trailing separators and its last element (the separators before
    that element stay). *)
Definition mkdirall_parent (path : string) : string :=
  let fix drop_name (l : list ascii) : list ascii :=
    match l with
    | c :: r => if GoPath.is_slash c then l else drop_name r
    | [] => []
    end in
  string_of_list_ascii
    (rev (drop_name (GoPath.drop_slashes (rev (list_ascii_of_string path))))).

(** [os.MkdirAll]: nothing to do when [path] is a directory; otherwise
    the parent is made first, then [path] itself; an error of that last
    [Mkdir] is dropped when [path] turns out to be a directory after
    all.  The recursion is on shorter and shorter prefixes of the path,
    so the length of the path bounds its depth. *)
Fixpoint MkdirAll_rec (fuel : nat) (path : string) (perm : Z) : M unit :=
  fun w =>
    match os_Stat path w with
    | (_, Ok dir) =>
        if IsDir dir then (w, Ok tt)
        else (w, Err (PathError "mkdir" path ENOTDIR))
    | (_, Err _) =>
        let parent := mkdirall_parent path in
        let mk_parent : M unit :=
          match fuel with
          | S f =>
              if bool_decide (parent = "") then ret tt
              else MkdirAll_rec f parent perm
          | O => ret tt
          end in
        (do _ <- mk_parent;
         fun w1 =>
           match os_Mkdir path perm w1 with
           | (w2, Ok _) => (w2, Ok tt)
           | (w2, Err err) =>
               match os_Lstat path w2 with
               | (_, Ok dir) =>
                   if IsDir dir then (w2, Ok tt) else (w2, Err err)
               | (_, Err _) => (w2, Err err)
               end
           end) w
    end.

Definition os_MkdirAll (path : string) (perm : Z) : M unit :=
  MkdirAll_rec (String.length path) path perm.

(** [fmt.Printf] and [fmt.Println] write a line on standard output,
    [log.Printf] one on standard error (its time stamp is left out). *)
Definition fmt_Println (line : string) : M unit :=
  fun w =>
    ({| fs := fs w; trace := trace w;
        stdout := stdout w ++ [line]; stderr := stderr w |}, Ok tt).

Definition log_Printf (line : string) : M unit :=
  fun w =>
    ({| fs := fs w; trace := trace w;
        stdout := stdout w; stderr := stderr w ++ [line] |}, Ok tt).

(** ** The program *)

(** Constants for directory structure *)
Definition defaultDstDir : string := "output".
Definition defaultSharedDir : string := "shared".
Definition defaultLibDir : string := "lib".
Definition defaultBinDir : string := "bin".

(** The command-line flags [-strip], [-one-dir], [-create-links] and
    [-dst-dir], after [flag.Parse]. *)
Record Flags := mkFlags {
  strip : bool;
  oneDir : bool;
  createLinks : bool;
  dstDirPath : string
}.

Definition defaultFlags : Flags :=
  {| strip := false; oneDir := true; createLinks := true;
     dstDirPath := defaultDstDir |}.

Variable flags : Flags.

(** tryStrip attempts to strip the binary if the flag is set *)
Definition tryStrip (filePath : string) : M unit :=
  if strip flags then
    fun w =>
      match exec_LookPath "strip" w with
      | Err err =>
          (w, Err (Errorf ("strip command not found: " +:+ Error err)))
      | Ok stripPath =>
          (* Execute the strip command *)
          let w' := with_fs w (fst (strip_Run stripPath filePath w))
                      (EvRun stripPath filePath) in
          match snd (strip_Run stripPath filePath w) with
          | Some err =>
              (w', Err (Errorf ("failed to strip " +:+ filePath +:+ ": "
                                  +:+ Error err)))
          | None => (w', Ok tt)
          end
      end
  else ret tt.

Definition isDynamicExecutable (binaryPath : string) : M bool :=
  fun w =>
    match ldd_CombinedOutput binaryPath w with
    | (_, Some _) => (w, Ok false)
    | (output, None) =>
        let outputStr := GoStrings.TrimSpace output in
        (* Check if the binary is static *)
        let outputLower := GoStrings.ToLower outputStr in
        if GoStrings.Contains outputLower "not a dynamic executable"
           || GoStrings.Contains outputLower "not a valid dynamic program"
        then (w, Ok false) (* It's static *)
        else (w, Ok true)
    end.

(** copyFile copies a file from source to destination *)
Definition copyFile (src dst : string) : M unit :=
  do input <- os_ReadFile src;
  os_WriteFile dst input o644.

(** createSymlink creates a symlink at dst pointing to src *)
Definition createSymlink (src dst : string) : M unit :=
  os_Symlink src dst.

(** findDynExec finds the dynexec executable in the user's $PATH *)
Definition findDynExec : M string :=
  fun w =>
    match exec_LookPath "sharun" w with
    | Err err => (w, Err (Errorf ("sharun not found in PATH: " +:+ Error err)))
    | Ok path => (w, Ok path)
    end.

(** getLibs retrieves the list of libraries that a binary depends on *)
Definition getLibs (binaryPath : string) : M (list string) :=
  fun w =>
    match ldd_FList binaryPath w with
    | Err err => (w, Err err)
    | Ok dependencies => (w, Ok dependencies)
    end.

(** The loop of [processBinary] that copies libraries to the shared lib
    directory. *)
Fixpoint copyLibs (sharedLibDir : string) (libPaths : list string) : M unit :=
  match libPaths with
  | [] => ret tt
  | libPath :: rest =>
      let dstLibPath := GoPath.Join [sharedLibDir; GoPath.Base libPath] in
      do _ <- copyFile libPath dstLibPath;
      do _ <- tryStrip dstLibPath;
      copyLibs sharedLibDir rest
  end.

(** The paths of the output tree. *)
Definition binDir : string := GoPath.Join [dstDirPath flags; defaultBinDir].
Definition dstDynExec : string := GoPath.Join [dstDirPath flags; "sharun"].
Definition sharedDir : string :=
  GoPath.Join [dstDirPath flags; defaultSharedDir].
Definition sharedBinDir : string := GoPath.Join [sharedDir; defaultBinDir].
Definition sharedLibDir : string := GoPath.Join [sharedDir; defaultLibDir].

(** [processBinary] is one long function.  Its body is cut here into the
    blocks that the design names, each with the lines it stands for;
    [processBinary] below runs them in the order of the source. *)

(** Lines 108-124, the branch [if !isDynamic]: handle static binaries. *)
Definition installStatic (binaryPath : string) (fileInfo : FileInfo)
  : M unit :=
  do _ <- os_MkdirAll binDir o755;
  let dstBinaryPath := GoPath.Join [binDir; Name fileInfo] in
  do _ <- copyFile binaryPath dstBinaryPath;
  do _ <- tryStrip dstBinaryPath;
  do _ <- os_Chmod dstBinaryPath o755;
  fmt_Println ("Processed static binary: " +:+ Name fileInfo).

(** Lines 128-139: the launcher is found and copied to the output
    root. *)
Definition installLauncher : M unit :=
  do dynexecPath <- findDynExec;
  do _ <- copyFile dynexecPath dstDynExec;
  os_Chmod dstDynExec o755.

(** Lines 141-151: the link in [bin/] to the launcher. *)
Definition linkBinary (fileInfo : FileInfo) : M unit :=
  do _ <- os_MkdirAll binDir o755;
  let symlinkPath := GoPath.Join [binDir; Name fileInfo] in
  if createLinks flags then createSymlink "../sharun" symlinkPath
  else ret tt.

(** Lines 153-163: the directories [shared/bin] and [shared/lib]. *)
Definition makeSharedDirs : M unit :=
  do _ <- os_MkdirAll sharedBinDir o755;
  os_MkdirAll sharedLibDir o755.

(** Lines 165-171: the copy of the binary in [shared/bin]. *)
Definition installSharedBinary (binaryPath : string) (fileInfo : FileInfo)
  : M unit :=
  let sharedBinaryPath := GoPath.Join [sharedBinDir; Name fileInfo] in
  do _ <- copyFile binaryPath sharedBinaryPath;
  tryStrip sharedBinaryPath.

(** Lines 173-188: the libraries, the dynamic linker included. *)
Definition installLibraries (binaryPath : string) : M unit :=
  (* Get the list of libraries, including the dynamic linker *)
  do libPaths <- getLibs binaryPath;
  (* Copy libraries to the shared lib directory *)
  copyLibs sharedLibDir libPaths.

(** Lines 127-190: process dynamic binaries. *)
Definition processDynamic (binaryPath : string) (fileInfo : FileInfo)
  : M unit :=
  do _ <- installLauncher;
  do _ <- linkBinary fileInfo;
  do _ <- makeSharedDirs;
  do _ <- installSharedBinary binaryPath fileInfo;
  do _ <- installLibraries binaryPath;
  fmt_Println ("Processed dynamic binary: " +:+ Name fileInfo).

Definition processBinary (binaryPath : string) : M unit :=
  do fileInfo <- os_Stat binaryPath;
  if negb (IsRegular fileInfo) then
    raise (Errorf ("skipped: " +:+ binaryPath +:+ " is not a regular file"))
  else
    (* Check if the binary is dynamic *)
    do isDynamic <- isDynamicExecutable binaryPath;
    (* Create the main destination directory *)
    do _ <- os_MkdirAll (dstDirPath flags) o755;
    if negb isDynamic then installStatic binaryPath fileInfo
    else processDynamic binaryPath fileInfo.

(** The line that [main] logs for a binary whose processing failed. *)
Definition error_line (binary : string) (err : error) : string :=
  "Error processing " +:+ binary +:+ ": " +:+ Error err.

(** The loop of [main] over the binaries. *)
Fixpoint mainLoop (binaryList : list string) (w : World) : World :=
  match binaryList with
  | [] => w
  | binary :: rest =>
      match processBinary binary w with
      | (w1, Err err) =>
          mainLoop rest (fst (log_Printf (error_line binary err) w1))
      | (w1, Ok _) => mainLoop rest w1
      end
  end.

(** The outcome of each call of [processBinary] that [mainLoop] makes,
    in order. *)
Fixpoint outcomes (binaryList : list string) (w : World)
  : list (string * res unit) :=
  match binaryList with
  | [] => []
  | binary :: rest =>
      match processBinary binary w with
      | (w1, Err err) =>
          (binary, Err err)
            :: outcomes rest (fst (log_Printf (error_line binary err) w1))
      | (w1, Ok u) => (binary, Ok u) :: outcomes rest w1
      end
  end.

End Program.

(** The assignment [*dstDirPath = defaultDstDir] that [main] makes when
    [-one-dir] is set and [-dst-dir] is empty. *)
Definition effective_flags (flags : Flags) : Flags :=
  if oneDir flags && bool_decide (dstDirPath flags = "")
  then {| strip := strip flags; oneDir := oneDir flags;
          createLinks := createLinks flags;
          dstDirPath := defaultDstDir |}
  else flags.

(** [main]: the flags and the positional arguments come from
    [flag.Parse]; the result is the final state and the exit status of
    the process, 1 from [os.Exit(1)] and 0 when [main] returns. *)
Definition main `{H : Host} (flags : Flags) (binaryList : list string)
    (w : World) : World * Z :=
  if Nat.eqb (length binaryList) 0 then
    (fst (fmt_Println "Error: Specify the ELF binary executable!" w), 1)
  else
    (mainLoop (effective_flags flags) binaryList w, 0).

(** The lines that [main] logs for the failures among [os]. *)
Fixpoint failure_lines (os : list (string * res unit)) : list string :=
  match os with
  | [] => []
  | (binary, Err err) :: rest => error_line binary err :: failure_lines rest
  | (_, Ok _) :: rest => failure_lines rest
  end.

(** ** Relations between states, used to state what a call leaves alone *)

(** Two nodes of the same kind: two files, two directories, or two
    links to the same target. *)
Definition same_kind (n n' : node) : Prop :=
  match n, n' with
  | File _ _, File _ _ => True
  | Dir _, Dir _ => True
  | Symlink t, Symlink t' => t = t'
  | _, _ => False
  end.

(** [m'] has a node of the same kind wherever [m] has one: nothing was
    removed, no file became a directory, no link was retargeted. *)
Definition kind_le (m m' : gmap cpath node) : Prop :=
  forall c n, m !! c = Some n -> exists n', m' !! c = Some n' /\ same_kind n n'.

(** What a walk that gave [r] gives in a later file system [m']. *)
Definition walk_later (m' : gmap cpath node) (follow : bool) (r : walk_res)
    (r' : walk_res) : Prop :=
  match r with
  | Found c n => exists n', m' !! c = Some n' /\ same_kind n n' /\ r' = Found c n'
  | Absent c =>
      match m' !! c with
      | None => r' = Absent c
      | Some (Symlink t) => follow = false -> r' = Found c (Symlink t)
      | Some n' => r' = Found c n'
      end
  | WalkErr _ => True
  end.

(** A computation [preserves] a relation between the state before and
    the state after when every run of it does, failed or not. *)
Definition preserves {A} (R : relation World) (c : M A) : Prop :=
  forall w w' r, c w = (w', r) -> R w w'.

Definition R_kind : relation World := fun w w' => kind_le (fs w) (fs w').

Definition R_sub : relation World := fun w w' => fs w ⊆ fs w'.

Definition R_log : relation World := fun w w' =>
  stderr w' = stderr w /\ trace w `prefix_of` trace w'.

(** Every call of package [os] changes at most one node: it puts a new
    node where there was none, or replaces a node by one of its kind.
    (The first case is that of no change but, possibly, a line printed
    on standard output.) *)
Definition one_update (w w' : World) : Prop :=
  (fs w' = fs w /\ trace w' = trace w /\ stderr w' = stderr w) \/
  exists c n ev,
    w' = with_fs w (<[c := n]> (fs w)) ev /\
    (fs w !! c = None \/ exists n0, fs w !! c = Some n0 /\ same_kind n0 n).

(** [os.Mkdir] and [os.MkdirAll] only add directories where there was
    nothing. *)
Definition adds_dir (w w' : World) : Prop :=
  w' = w \/
  exists c p,
    w' = with_fs w (<[c := Dir p]> (fs w)) (EvMkdir c) /\ fs w !! c = None.

(** A preorder that every call of package [os] respects. *)
Record os_rel (R : relation World) : Prop := mk_os_rel {
  os_rel_refl : forall w, R w w;
  os_rel_trans : forall w1 w2 w3, R w1 w2 -> R w2 w3 -> R w1 w3;
  os_rel_update : forall w w', one_update w w' -> R w w'
}.

(** ** A host and a file system to run the program on *)

(** The canonical path that an absolute path name without links, [.] or
    [..] stands for. *)
Definition key (p : string) : cpath :=
  rev (List.filter (fun c => negb (bool_decide (c = ""))) (GoPath.split p)).

Definition mkfs (l : list (string * node)) : gmap cpath node :=
  list_to_map (prod_map key id <$> l).

Definition lookup_table {A} (k : string) (l : list (string * A)) : option A :=
  snd <$> List.find (fun e => bool_decide (fst e = k)) l.

(** A host whose working directory is [/work] and whose umask is [022].
    [launcher] is where [sharun] is on the search path, if anywhere;
    [dynamic] lists the dynamically linked binaries with what
    [ldd.FList] returns for each; on any other path [ldd] prints that it
    is no dynamic executable and exits with status 1.  No [strip] tool
    is installed. *)
Definition ExampleHost (launcher : option string)
    (dynamic : list (string * res (list string))) : Host :=
  {| cwd := key "/work";
     umask := 18;
     exec_LookPath := fun file _ =>
       match (if bool_decide (file = "sharun") then launcher else None) with
       | Some p => Ok p
       | None =>
           Err (ExternalError
                  ("exec: " +:+ file
                     +:+ ": executable file not found in $PATH"))
       end;
     ldd_CombinedOutput := fun path _ =>
       match lookup_table path dynamic with
       | Some _ => ("libc.so.6 => /lib/libc.so.6 (0x00007f0000000000)", None)
       | None =>
           ("not a dynamic executable", Some (ExternalError "exit status 1"))
       end;
     strip_Run := fun _ _ w => (fs w, Some (ExternalError "exit status 127"));
     ldd_FList := fun path _ =>
       match lookup_table path dynamic with
       | Some r => r
       | None => Err (ExternalError "not a dynamic executable")
       end |}.

Definition example_dynamic : list (string * res (list string)) :=
  [("/bin/C", Ok ["/lib/libc.so.6"; "/lib/ld-linux.so.2"]);
   ("/opt/bin/D", Ok ["/opt/lib/libc.so.6"]);
   ("/opt/bin/C", Err (ExternalError "ldd: libfoo.so.1: not found"))].

Definition host_ok : Host :=
  ExampleHost (Some "/usr/bin/sharun") example_dynamic.

Definition host_no_launcher : Host := ExampleHost None example_dynamic.

Definition example_fs : list (string * node) :=
  [("/", Dir 493); ("/work", Dir 493);
   ("/usr", Dir 493); ("/usr/bin", Dir 493);
   ("/usr/bin/sharun", File [x7f; x45; x4c; x46; x00] 493);
   ("/bin", Dir 493);
   ("/bin/A", File [x7f; x45; x4c; x46; x0a] 493);
   ("/bin/C", File [x7f; x45; x4c; x46; x0c] 493);
   ("/lib", Dir 493);
   ("/lib/libc.so.6", File [x7f; x45; x4c; x46; x10] 420);
   ("/lib/ld-linux.so.2", File [x7f; x45; x4c; x46; x11] 493);
   ("/opt", Dir 493); ("/opt/bin", Dir 493); ("/opt/lib", Dir 493);
   ("/opt/bin/C", File [x7f; x45; x4c; x46; x1c] 493);
   ("/opt/bin/D", File [x7f; x45; x4c; x46; x0d] 493);
   ("/opt/lib/libc.so.6", File [x7f; x45; x4c; x46; x20] 420)].

Definition world_of (m : gmap cpath node) : World :=
  {| fs := m; trace := []; stdout := []; stderr := [] |}.

Definition example_map : gmap cpath node :=
  Eval vm_compute in mkfs example_fs.

(** The output tree does not exist yet. *)
Definition world0 : World := world_of example_map.

(** An output tree of an earlier run is there: [bin/A] and [bin/C] are
    regular files. *)
Definition stale_bin_map : gmap cpath node :=
  Eval vm_compute in
    mkfs (example_fs ++
          [("/work/output", Dir 493); ("/work/output/bin", Dir 493);
           ("/work/output/bin/A", File [x00; x01] 384);
           ("/work/output/bin/C", File [x00; x02] 420)]).

Definition world_stale_bin : World := world_of stale_bin_map.

(** An executable file is at [shared/bin/C] already. *)
Definition stale_shared_map : gmap cpath node :=
  Eval vm_compute in
    mkfs (example_fs ++
          [("/work/output", Dir 493); ("/work/output/shared", Dir 493);
           ("/work/output/shared/bin", Dir 493);
           ("/work/output/shared/bin/C", File [x00; x03] 493)]).

Definition world_stale_shared : World := world_of stale_shared_map.

(** The flags of a run with [-create-links=false]. *)
Definition flags_no_links : Flags :=
  {| strip := false; oneDir := true; createLinks := false;
     dstDirPath := defaultDstDir |}.

(** The number of writes to the file at [c] in a trace. *)
Definition writes_at (c : cpath) (t : list event) : nat :=
  length (List.filter
            (fun ev =>
               match ev with
               | EvWriteFile c' _ => bool_decide (c' = c)
               | _ => false
               end) t).

(** The state after [/opt/bin/D] was processed from [world0]: its
    library is at [shared/lib/libc.so.6]. *)
Definition world_after_D : World :=
  Eval vm_compute in
    fst (processBinary (H := host_ok) defaultFlags "/opt/bin/D" world0).

(** The execute bits of a mode, [0111] in octal. *)
Definition o111 : Z := 73.

(** The state after [/bin/C] was processed from [world0]: [bin/C] is a
    link to the launcher. *)
Definition world_after_C : World :=
  Eval vm_compute in
    fst (processBinary (H := host_ok) defaultFlags "/bin/C" world0).



(** The flags of a run with [-one-dir=false -dst-dir ""]. *)
Definition flags_no_dst : Flags :=
  {| strip := false; oneDir := false; createLinks := true;
     dstDirPath := "" |}.

(** * Properties *)

(** ** Go's path functions on sample inputs *)

Example Clean_samples :
  GoPath.Clean "a//b/./c/.." = "a/b" /\ GoPath.Clean "/../a" = "/a" /\
  GoPath.Clean "../../a/.." = "../.." /\ GoPath.Clean "a/.." = "." /\
  GoPath.Clean "/" = "/" /\ GoPath.Clean "" = ".".
Proof. repeat split; reflexivity. Qed.

Example Join_samples :
  GoPath.Join ["output"; "bin"] = "output/bin" /\
  GoPath.Join [""; "bin"] = "bin" /\
  GoPath.Join ["out/"; "shared"] = "out/shared" /\
  GoPath.Join ["a"; "../b"] = "b".
Proof. repeat split; reflexivity. Qed.

Example Base_samples :
  GoPath.Base "/lib/x86/libc.so.6" = "libc.so.6" /\
  GoPath.Base "a/b//" = "b" /\ GoPath.Base "///" = "/" /\
  GoPath.Base "" = ".".
Proof. repeat split; reflexivity. Qed.

Example basename_samples :
  GoPath.basename "/usr/bin/ls" = "ls" /\ GoPath.basename "ls" = "ls" /\
  GoPath.basename "a/b/" = "b" /\ GoPath.basename "/" = "/" /\
  GoPath.basename "/ls" = "ls".
Proof. repeat split; reflexivity. Qed.

Example mkdirall_parent_samples :
  mkdirall_parent "a/b/c" = "a/b/" /\ mkdirall_parent "a/b/" = "a/" /\
  mkdirall_parent "/a" = "/" /\ mkdirall_parent "a" = "" /\
  mkdirall_parent "a//b" = "a//".
Proof. repeat split; reflexivity. Qed.

(** ** The path walk in a file system that has grown *)

Lemma same_kind_refl n : same_kind n n.
Proof. destruct n; simpl; auto. Qed.

Lemma same_kind_trans n1 n2 n3 :
  same_kind n1 n2 -> same_kind n2 n3 -> same_kind n1 n3.
Proof. destruct n1, n2, n3; simpl; try tauto; congruence. Qed.

Lemma kind_le_refl m : kind_le m m.
Proof. intros c n Hc. exists n. split; [done | apply same_kind_refl]. Qed.

Lemma kind_le_trans m1 m2 m3 : kind_le m1 m2 -> kind_le m2 m3 -> kind_le m1 m3.
Proof.
  intros H12 H23 c n Hc.
  destruct (H12 c n Hc) as (n2 & Hc2 & Hk2).
  destruct (H23 c n2 Hc2) as (n3 & Hc3 & Hk3).
  exists n3. split; [done | by eapply same_kind_trans].
Qed.

Lemma kind_le_insert_absent m c n :
  m !! c = None -> kind_le m (<[c := n]> m).
Proof.
  intros Hnone c' n' Hc'. exists n'.
  split; [| apply same_kind_refl].
  rewrite lookup_insert_ne; [done | congruence].
Qed.

Lemma kind_le_insert_same m c n n' :
  m !! c = Some n -> same_kind n n' -> kind_le m (<[c := n']> m).
Proof.
  intros Hc Hk c' n0 Hc'.
  destruct (decide (c = c')) as [<- | Hne].
  - exists n'. rewrite lookup_insert_eq. split; [done | congruence].
  - exists n0. rewrite lookup_insert_ne by done.
    split; [done | apply same_kind_refl].
Qed.

Lemma sub_kind_le (m m' : gmap cpath node) : m ⊆ m' -> kind_le m m'.
Proof.
  intros Hsub c n Hc. exists n. split; [| apply same_kind_refl].
  by eapply lookup_weaken.
Qed.

Lemma walk_nil fuel m follow cur :
  walk fuel m follow cur [] =
  match m !! cur with Some n => Found cur n | None => WalkErr ENOENT end.
Proof. destruct fuel; reflexivity. Qed.

Lemma walk_cons fuel m follow cur c r :
  walk fuel m follow cur (c :: r) =
  if is_empty_name c then walk fuel m follow cur r
  else if bool_decide (c = "..") then walk fuel m follow (tail cur) r
  else
    match m !! (c :: cur) with
    | None => match r with [] => Absent (c :: cur) | _ => WalkErr ENOENT end
    | Some (Dir _) => walk fuel m follow (c :: cur) r
    | Some (File d p) =>
        match r with [] => Found (c :: cur) (File d p) | _ => WalkErr ENOTDIR end
    | Some (Symlink t) =>
        if bool_decide (r = []) && negb follow then Found (c :: cur) (Symlink t)
        else
          match fuel with
          | O => WalkErr ELOOP
          | S f =>
              if bool_decide (t = "") then WalkErr ENOENT
              else walk f m follow (if GoPath.is_abs t then [] else cur)
                     (GoPath.split t ++ r)
          end
    end.
Proof. destruct fuel; reflexivity. Qed.

Lemma walk_later_nil m m' follow cur fuel :
  kind_le m m' ->
  walk_later m' follow (walk fuel m follow cur []) (walk fuel m' follow cur []).
Proof.
  intros Hle. rewrite !walk_nil.
  destruct (m !! cur) as [n |] eqn:Hc; simpl; [| done].
  destruct (Hle _ _ Hc) as (n' & Hc' & Hk). rewrite Hc'. eauto.
Qed.

(** The walk takes the same way in a file system that has only grown or
    changed files in place. *)
Lemma walk_kind_le m m' follow :
  kind_le m m' ->
  forall fuel rest cur,
    walk_later m' follow (walk fuel m follow cur rest)
      (walk fuel m' follow cur rest).
Proof.
  intros Hle fuel.
  induction fuel as [| f IHf]; induction rest as [| c r IHr]; intros cur;
    try (by apply walk_later_nil).
  - rewrite !walk_cons.
    destruct (is_empty_name c); [apply IHr |].
    destruct (bool_decide (c = "..")); [apply IHr |].
    destruct (m !! (c :: cur)) as [n |] eqn:Hc.
    + destruct (Hle _ _ Hc) as (n' & Hc' & Hk). rewrite Hc'.
      destruct n as [d p | p | t], n' as [d' p' | p' | t'];
        simpl in Hk; try contradiction; subst.
      * destruct r; simpl; [eauto | done].
      * apply IHr.
      * destruct (bool_decide (r = []) && negb follow); simpl; [eauto | done].
    + destruct r as [| c2 r2]; simpl; [| done].
      destruct (m' !! (c :: cur)) as [[d p | p | t] |] eqn:Hc';
        rewrite ?walk_nil, ?Hc'; try done.
      intros ->. done.
  - rewrite !walk_cons.
    destruct (is_empty_name c); [apply IHr |].
    destruct (bool_decide (c = "..")); [apply IHr |].
    destruct (m !! (c :: cur)) as [n |] eqn:Hc.
    + destruct (Hle _ _ Hc) as (n' & Hc' & Hk). rewrite Hc'.
      destruct n as [d p | p | t], n' as [d' p' | p' | t'];
        simpl in Hk; try contradiction; subst.
      * destruct r; simpl; [eauto | done].
      * apply IHr.
      * destruct (bool_decide (r = []) && negb follow); simpl; [eauto |].
        destruct (bool_decide (t' = "")); [done | apply IHf].
    + destruct r as [| c2 r2]; simpl; [| done].
      destruct (m' !! (c :: cur)) as [[d p | p | t] |] eqn:Hc';
        rewrite ?walk_nil, ?Hc'; try done.
      intros ->. done.
Qed.

Lemma walk_Found_lookup m follow fuel rest cur c n :
  walk fuel m follow cur rest = Found c n -> m !! c = Some n.
Proof.
  intros Hw.
  pose proof (walk_kind_le m m follow (kind_le_refl m) fuel rest cur) as Hl.
  rewrite Hw in Hl. simpl in Hl. destruct Hl as (n' & Hc & _ & [= ->]). done.
Qed.

Lemma walk_Absent_None m follow :
  forall fuel rest cur c,
    walk fuel m follow cur rest = Absent c -> m !! c = None.
Proof.
  induction fuel as [| f IHf]; induction rest as [| c r IHr]; intros cur c0;
    rewrite ?walk_nil, ?walk_cons.
  1,3: destruct (m !! cur); discriminate.
  all: destruct (is_empty_name c); [apply IHr |];
       destruct (bool_decide (c = "..")); [apply IHr |];
       destruct (m !! (c :: cur)) as [[d p | p | t] |] eqn:Hc.
  all: try (destruct r; intros [= <-] || discriminate; done).
  all: try apply IHr.
  all: destruct (bool_decide (r = []) && negb follow); try discriminate.
  destruct (bool_decide (t = "")); [discriminate | apply IHf].
Qed.

(** ** The monad *)

Lemma preserves_ret {A} (R : relation World) (a : A) :
  (forall w, R w w) -> preserves R (ret a).
Proof. intros Hrefl w w' r [= <- <-]. apply Hrefl. Qed.

Lemma preserves_raise {A} (R : relation World) e :
  (forall w, R w w) -> preserves R (raise (A := A) e).
Proof. intros Hrefl w w' r [= <- <-]. apply Hrefl. Qed.

Lemma preserves_bind {A B} (R : relation World) (c : M A) (k : A -> M B) :
  (forall w1 w2 w3, R w1 w2 -> R w2 w3 -> R w1 w3) ->
  preserves R c -> (forall a, preserves R (k a)) -> preserves R (bind c k).
Proof.
  intros Htrans Hc Hk w w' r. unfold bind.
  destruct (c w) as [w1 [a | e]] eqn:Hcw.
  - intros Hkw. eapply Htrans; [by eapply Hc | by eapply Hk].
  - intros [= <- <-]. by eapply Hc.
Qed.

Lemma bind_Ok_inv {A B} (c : M A) (k : A -> M B) w w' b :
  bind c k w = (w', Ok b) ->
  exists w1 a, c w = (w1, Ok a) /\ k a w1 = (w', Ok b).
Proof.
  unfold bind. destruct (c w) as [w1 [a | e]]; [eauto | discriminate].
Qed.

Lemma bind_Ok {A B} (c : M A) (k : A -> M B) w w1 a :
  c w = (w1, Ok a) -> bind c k w = k a w1.
Proof. unfold bind. by intros ->. Qed.

Lemma bind_Err {A B} (c : M A) (k : A -> M B) w w1 e :
  c w = (w1, Err e) -> bind c k w = (w1, Err e).
Proof. unfold bind. by intros ->. Qed.

(** ** The relations *)

Lemma one_update_kind w w' : one_update w w' -> R_kind w w'.
Proof.
  intros [(Hfs & _) | (c & n & ev & -> & [Hnone | (n0 & Hc & Hk)])];
    unfold R_kind; simpl.
  - rewrite Hfs. apply kind_le_refl.
  - by apply kind_le_insert_absent.
  - by eapply kind_le_insert_same.
Qed.

Lemma one_update_log w w' : one_update w w' -> R_log w w'.
Proof.
  intros [(_ & Ht & He) | (c & n & ev & -> & _)]; unfold R_log; simpl.
  - by rewrite Ht.
  - split; [done | by apply prefix_app_r].
Qed.

Lemma R_kind_os : os_rel R_kind.
Proof.
  split.
  - intros w. apply kind_le_refl.
  - intros w1 w2 w3. apply kind_le_trans.
  - apply one_update_kind.
Qed.

Lemma R_log_os : os_rel R_log.
Proof.
  split.
  - intros w. split; reflexivity.
  - intros w1 w2 w3 [H1 H2] [H3 H4]. split; [congruence | by etransitivity].
  - apply one_update_log.
Qed.

Lemma adds_dir_update w w' : adds_dir w w' -> one_update w w'.
Proof.
  intros [-> | (c & p & -> & Hnone)]; [by left | right].
  exists c, (Dir p), (EvMkdir c). split; [done | by left].
Qed.

Lemma adds_dir_sub w w' : adds_dir w w' -> R_sub w w'.
Proof.
  intros [-> | (c & p & -> & Hnone)]; unfold R_sub; simpl; [done |].
  by apply insert_subseteq.
Qed.

(** ** The calls of package [os] *)

Section OsLemmas.

Context `{H : Host}.

Lemma resolve_kind_le m m' follow name :
  kind_le m m' ->
  walk_later m' follow (resolve m cwd follow name) (resolve m' cwd follow name).
Proof.
  intros Hle. unfold resolve.
  destruct (bool_decide (name = "")); [done |].
  destruct (m !! (if GoPath.is_abs name then [] else cwd)) as [n |] eqn:Hs;
    [| done].
  destruct (Hle _ _ Hs) as (n' & Hs' & Hk). rewrite Hs'.
  destruct n, n'; simpl in Hk; try contradiction; try done.
  by apply walk_kind_le.
Qed.

Lemma resolve_Found_lookup m follow name c n :
  resolve m cwd follow name = Found c n -> m !! c = Some n.
Proof.
  unfold resolve. destruct (bool_decide (name = "")); [done |].
  destruct (m !! _) as [[| |] |]; try done. apply walk_Found_lookup.
Qed.

Lemma resolve_Absent_None m follow name c :
  resolve m cwd follow name = Absent c -> m !! c = None.
Proof.
  unfold resolve. destruct (bool_decide (name = "")); [done |].
  destruct (m !! _) as [[| |] |]; try done. apply walk_Absent_None.
Qed.

(** A name that resolves keeps resolving to the same place. *)
Lemma resolve_Found_later m m' follow name c n :
  kind_le m m' -> resolve m cwd follow name = Found c n ->
  exists n', m' !! c = Some n' /\ same_kind n n' /\
             resolve m' cwd follow name = Found c n'.
Proof.
  intros Hle Hr. pose proof (resolve_kind_le m m' follow name Hle) as Hl.
  by rewrite Hr in Hl.
Qed.

Lemma resolve_Found_sub (m m' : gmap cpath node) follow name c n :
  m ⊆ m' -> resolve m cwd follow name = Found c n ->
  resolve m' cwd follow name = Found c n.
Proof.
  intros Hsub Hr.
  destruct (resolve_Found_later m m' follow name c n (sub_kind_le _ _ Hsub) Hr)
    as (n' & Hc' & _ & ->).
  apply resolve_Found_lookup in Hr.
  rewrite (lookup_weaken _ _ _ _ Hr Hsub) in Hc'. congruence.
Qed.

Lemma stat_with_pure follow op name w w' r :
  stat_with follow op name w = (w', r) -> w' = w.
Proof.
  unfold stat_with. destruct (resolve _ _ _ _); by intros [= <- _].
Qed.

Lemma os_ReadFile_pure name w w' r :
  os_ReadFile name w = (w', r) -> w' = w.
Proof.
  unfold os_ReadFile.
  destruct (resolve _ _ _ _) as [c [| |] | |]; by intros [= <- _].
Qed.

Lemma os_WriteFile_update name data perm w w' r :
  os_WriteFile name data perm w = (w', r) -> one_update w w'.
Proof.
  unfold os_WriteFile.
  destruct (resolve _ _ _ _) as [c [d p | |] | c |] eqn:Hr; intros [= <- _];
    try (by left); right.
  - exists c, (File data p), (EvWriteFile c data). split; [done |]. right.
    exists (File d p). split; [by eapply resolve_Found_lookup | done].
  - exists c, (File data (creation_mode perm)), (EvWriteFile c data).
    split; [done |]. left. by eapply resolve_Absent_None.
Qed.

Lemma os_Chmod_update name mode w w' r :
  os_Chmod name mode w = (w', r) -> one_update w w'.
Proof.
  unfold os_Chmod.
  destruct (resolve _ _ _ _) as [c [d p | p |] | c |] eqn:Hr; intros [= <- _];
    try (by left); right.
  - exists c, (File d (Z.land mode o777)), (EvChmod c (Z.land mode o777)).
    split; [done |]. right.
    exists (File d p). split; [by eapply resolve_Found_lookup | done].
  - exists c, (Dir (Z.land mode o777)), (EvChmod c (Z.land mode o777)).
    split; [done |]. right.
    exists (Dir p). split; [by eapply resolve_Found_lookup | done].
Qed.

Lemma os_Symlink_update old new w w' r :
  os_Symlink old new w = (w', r) -> one_update w w'.
Proof.
  unfold os_Symlink.
  destruct (bool_decide (old = "")); [intros [= <- _]; by left |].
  destruct (resolve _ _ _ _) as [c n | c |] eqn:Hr; intros [= <- _];
    try (by left); right.
  exists c, (Symlink old), (EvSymlink c old). split; [done |]. left.
  by eapply resolve_Absent_None.
Qed.

Lemma os_Mkdir_adds name perm w w' r :
  os_Mkdir name perm w = (w', r) -> adds_dir w w'.
Proof.
  unfold os_Mkdir.
  destruct (resolve _ _ _ _) as [c n | c |] eqn:Hr; intros [= <- _];
    try (by left); right.
  exists c, (creation_mode perm). split; [done |].
  by eapply resolve_Absent_None.
Qed.

(** What the successful calls leave behind. *)

Lemma os_Stat_Ok name w w' fi :
  os_Stat name w = (w', Ok fi) ->
  w' = w /\ Name fi = GoPath.basename name /\
  exists c, resolve (fs w) cwd true name = Found c (fi_node fi).
Proof.
  unfold os_Stat, stat_with.
  destruct (resolve _ _ _ _) as [c n | c | e]; intros [= <- <-]. eauto.
Qed.

Lemma os_Stat_Found name w c n :
  resolve (fs w) cwd true name = Found c n ->
  os_Stat name w = (w, Ok (mkFileInfo (GoPath.basename name) n)).
Proof. unfold os_Stat, stat_with. by intros ->. Qed.

Lemma os_Lstat_Ok name w w' fi :
  os_Lstat name w = (w', Ok fi) ->
  w' = w /\ Name fi = GoPath.basename name /\
  exists c, resolve (fs w) cwd false name = Found c (fi_node fi).
Proof.
  unfold os_Lstat, stat_with.
  destruct (resolve _ _ _ _) as [c n | c | e]; intros [= <- <-]. eauto.
Qed.

Lemma os_Lstat_Found name w c n :
  resolve (fs w) cwd false name = Found c n ->
  os_Lstat name w = (w, Ok (mkFileInfo (GoPath.basename name) n)).
Proof. unfold os_Lstat, stat_with. by intros ->. Qed.

Lemma os_ReadFile_Ok name w w' data :
  os_ReadFile name w = (w', Ok data) ->
  w' = w /\ exists c p, resolve (fs w) cwd true name = Found c (File data p).
Proof.
  unfold os_ReadFile.
  destruct (resolve _ _ _ _) as [c [d p | p | t] | c | e]; intros [= <- <-].
  eauto.
Qed.

Lemma os_ReadFile_Found name w c data p :
  resolve (fs w) cwd true name = Found c (File data p) ->
  os_ReadFile name w = (w, Ok data).
Proof. unfold os_ReadFile. by intros ->. Qed.

(** After a successful [os.WriteFile] the name resolves to a file with
    the data written; its mode is the old one, or that of a new file. *)
Lemma os_WriteFile_Ok name data perm w w' :
  os_WriteFile name data perm w = (w', Ok tt) ->
  exists c p,
    w' = with_fs w (<[c := File data p]> (fs w)) (EvWriteFile c data) /\
    resolve (fs w') cwd true name = Found c (File data p) /\
    ((exists d, resolve (fs w) cwd true name = Found c (File d p)) \/
     (resolve (fs w) cwd true name = Absent c /\ p = creation_mode perm)).
Proof.
  intros Hw. pose proof (os_WriteFile_update _ _ _ _ _ _ Hw) as Hu.
  apply one_update_kind in Hu.
  pose proof (resolve_kind_le _ _ true name Hu) as Hl.
  unfold os_WriteFile in Hw.
  destruct (resolve (fs w) cwd true name) as [c [d p | |] | c |] eqn:Hr;
    revert Hw; intros [= <-]; unfold walk_later, with_fs in Hl |- *;
    cbn [fs] in Hl |- *.
  - exists c, p. split; [done |]. split; [| left; eauto].
    destruct Hl as (n' & Hc & _ & ->). rewrite lookup_insert_eq in Hc.
    congruence.
  - exists c, (creation_mode perm). split; [done |]. split; [| by right].
    by rewrite lookup_insert_eq in Hl.
Qed.

(** After a successful [os.Chmod] the name resolves to the same node
    with the new permission bits. *)
Lemma os_Chmod_Ok name mode w w' :
  os_Chmod name mode w = (w', Ok tt) ->
  exists c n n',
    resolve (fs w) cwd true name = Found c n /\
    match n with
    | File d _ => n' = File d (Z.land mode o777)
    | Dir _ => n' = Dir (Z.land mode o777)
    | Symlink _ => False
    end /\
    w' = with_fs w (<[c := n']> (fs w)) (EvChmod c (Z.land mode o777)) /\
    resolve (fs w') cwd true name = Found c n'.
Proof.
  intros Hw. pose proof (os_Chmod_update _ _ _ _ _ Hw) as Hu.
  apply one_update_kind in Hu.
  pose proof (resolve_kind_le _ _ true name Hu) as Hl.
  unfold os_Chmod in Hw.
  destruct (resolve (fs w) cwd true name) as [c [d p | p |] | c |] eqn:Hr;
    revert Hw; intros [= <-]; unfold walk_later, with_fs in Hl |- *;
    cbn [fs] in Hl |- *.
  - exists c, (File d p), (File d (Z.land mode o777)).
    repeat split; try done.
    destruct Hl as (n' & Hc & _ & ->). rewrite lookup_insert_eq in Hc.
    congruence.
  - exists c, (Dir p), (Dir (Z.land mode o777)).
    repeat split; try done.
    destruct Hl as (n' & Hc & _ & ->). rewrite lookup_insert_eq in Hc.
    congruence.
Qed.

(** After a successful [os.Symlink] the new name is a link to the old
    one. *)
Lemma os_Symlink_Ok old new w w' :
  os_Symlink old new w = (w', Ok tt) ->
  exists c,
    w' = with_fs w (<[c := Symlink old]> (fs w)) (EvSymlink c old) /\
    resolve (fs w) cwd false new = Absent c /\
    resolve (fs w') cwd false new = Found c (Symlink old).
Proof.
  intros Hs. pose proof (os_Symlink_update _ _ _ _ _ Hs) as Hu.
  apply one_update_kind in Hu.
  pose proof (resolve_kind_le _ _ false new Hu) as Hl.
  unfold os_Symlink in Hs. destruct (bool_decide (old = "")); [done |].
  destruct (resolve (fs w) cwd false new) as [c n | c |] eqn:Hr;
    revert Hs; intros [= <-]; unfold walk_later, with_fs in Hl |- *;
    cbn [fs] in Hl |- *.
  exists c. split; [done |]. split; [done |].
  rewrite lookup_insert_eq in Hl. by apply Hl.
Qed.

Lemma os_WriteFile_Err name data perm w w' e :
  os_WriteFile name data perm w = (w', Err e) -> w' = w.
Proof.
  unfold os_WriteFile.
  destruct (resolve _ _ _ _) as [c [d p | |] | c |]; by intros [= <-].
Qed.

(** [os.MkdirAll] respects every preorder that [os.Mkdir] does. *)
Lemma MkdirAll_rec_preserves (R : relation World) :
  (forall w, R w w) ->
  (forall w1 w2 w3, R w1 w2 -> R w2 w3 -> R w1 w3) ->
  (forall name perm, preserves R (os_Mkdir name perm)) ->
  forall fuel path perm, preserves R (MkdirAll_rec fuel path perm).
Proof.
  intros Hrefl Htrans Hmk.
  induction fuel as [| f IHf]; intros path perm w w' r; simpl.
  all: destruct (os_Stat path w) as [ws [dir | e]] eqn:Hs.
  all: try (destruct (IsDir dir); intros [= <- _]; apply Hrefl).
  all: unfold bind.
  - unfold ret.
    destruct (os_Mkdir path perm w) as [w2 [u | err]] eqn:Hm.
    + intros [= <- _]. by eapply Hmk.
    + destruct (os_Lstat path w2) as [w3 [d | e']];
        [destruct (IsDir d) |]; intros [= <- _]; by eapply Hmk.
  - destruct (bool_decide (mkdirall_parent path = "")).
    + unfold ret.
      destruct (os_Mkdir path perm w) as [w2 [u | err]] eqn:Hm.
      * intros [= <- _]. by eapply Hmk.
      * destruct (os_Lstat path w2) as [w3 [d | e']];
          [destruct (IsDir d) |]; intros [= <- _]; by eapply Hmk.
    + destruct (MkdirAll_rec f (mkdirall_parent path) perm w)
        as [w1 [u1 | e1]] eqn:Hp.
      * destruct (os_Mkdir path perm w1) as [w2 [u | err]] eqn:Hm.
        -- intros [= <- _]. eapply Htrans; [by eapply IHf | by eapply Hmk].
        -- destruct (os_Lstat path w2) as [w3 [d | e']];
             [destruct (IsDir d) |]; intros [= <- _];
             (eapply Htrans; [by eapply IHf | by eapply Hmk]).
      * intros [= <- _]. by eapply IHf.
Qed.

Lemma os_MkdirAll_sub path perm : preserves R_sub (os_MkdirAll path perm).
Proof.
  apply MkdirAll_rec_preserves.
  - intros w. unfold R_sub. done.
  - intros w1 w2 w3 H12 H23. unfold R_sub in *. by etransitivity.
  - intros name p w w' r Hm. apply adds_dir_sub. by eapply os_Mkdir_adds.
Qed.

Section Preserves.

Variable R : relation World.
Hypothesis HR : os_rel R.

Lemma preserves_ret_os {A} (a : A) : preserves R (ret a).
Proof. apply preserves_ret. apply HR. Qed.

Lemma preserves_raise_os {A} e : preserves R (raise (A := A) e).
Proof. apply preserves_raise. apply HR. Qed.

Lemma preserves_bind_os {A B} (c : M A) (k : A -> M B) :
  preserves R c -> (forall a, preserves R (k a)) -> preserves R (bind c k).
Proof. apply preserves_bind. apply HR. Qed.

Lemma preserves_pure {A} (c : M A) :
  (forall w w' r, c w = (w', r) -> w' = w) -> preserves R c.
Proof. intros Hp w w' r Hc. rewrite (Hp _ _ _ Hc). apply HR. Qed.

Lemma preserves_update {A} (c : M A) :
  (forall w w' r, c w = (w', r) -> one_update w w') -> preserves R c.
Proof. intros Hu w w' r Hc. apply HR. by eapply Hu. Qed.

Lemma fmt_Println_preserves line : preserves R (fmt_Println line).
Proof. apply preserves_update. intros w w' r [= <- _]. by left. Qed.

Lemma os_Stat_preserves name : preserves R (os_Stat name).
Proof. apply preserves_pure. apply stat_with_pure. Qed.

Lemma os_ReadFile_preserves name : preserves R (os_ReadFile name).
Proof. apply preserves_pure. apply os_ReadFile_pure. Qed.

Lemma os_WriteFile_preserves name data perm :
  preserves R (os_WriteFile name data perm).
Proof. apply preserves_update. apply os_WriteFile_update. Qed.

Lemma os_Chmod_preserves name mode : preserves R (os_Chmod name mode).
Proof. apply preserves_update. apply os_Chmod_update. Qed.

Lemma os_Symlink_preserves old new : preserves R (os_Symlink old new).
Proof. apply preserves_update. apply os_Symlink_update. Qed.

Lemma os_Mkdir_preserves name perm : preserves R (os_Mkdir name perm).
Proof.
  apply preserves_update. intros w w' r Hm.
  apply adds_dir_update. by eapply os_Mkdir_adds.
Qed.

Lemma os_MkdirAll_preserves path perm : preserves R (os_MkdirAll path perm).
Proof.
  apply MkdirAll_rec_preserves; [apply HR | apply HR |].
  intros. by apply os_Mkdir_preserves.
Qed.

End Preserves.

(** ** The functions of the program *)

Section ProgramLemmas.

Variable flags : Flags.

Lemma isDynamicExecutable_pure binaryPath w w' r :
  isDynamicExecutable binaryPath w = (w', r) -> w' = w.
Proof.
  unfold isDynamicExecutable.
  destruct (ldd_CombinedOutput binaryPath w) as [out [e |]];
    [| destruct (_ || _)]; by intros [= <- _].
Qed.

Lemma findDynExec_pure w w' r : findDynExec w = (w', r) -> w' = w.
Proof.
  unfold findDynExec. destruct (exec_LookPath _ w); by intros [= <- _].
Qed.

Lemma getLibs_pure binaryPath w w' r :
  getLibs binaryPath w = (w', r) -> w' = w.
Proof.
  unfold getLibs. destruct (ldd_FList _ w); by intros [= <- _].
Qed.

Lemma tryStrip_off filePath :
  strip flags = false -> tryStrip flags filePath = ret tt.
Proof. unfold tryStrip. by intros ->. Qed.

Lemma tryStrip_log filePath : preserves R_log (tryStrip flags filePath).
Proof.
  unfold tryStrip.
  destruct (strip flags); [| apply preserves_ret; apply R_log_os].
  intros w w' r. destruct (exec_LookPath "strip" w).
  - destruct (snd (strip_Run _ _ _)); intros [= <- _];
      (split; [done | by apply prefix_app_r]).
  - intros [= <- _]. apply R_log_os.
Qed.

Lemma copyFile_Ok src dst w w' :
  copyFile src dst w = (w', Ok tt) ->
  exists data,
    os_ReadFile src w = (w, Ok data) /\
    os_WriteFile dst data o644 w = (w', Ok tt).
Proof.
  unfold copyFile. intros Hc.
  apply bind_Ok_inv in Hc as (w1 & data & Hr & Hw).
  destruct (os_ReadFile_Ok _ _ _ _ Hr) as [-> _]. eauto.
Qed.

Section Composite.

Variable R : relation World.
Hypothesis HR : os_rel R.
Hypothesis tryStrip_R : forall filePath, preserves R (tryStrip flags filePath).

Local Ltac pres_step :=
  lazymatch goal with
  | |- preserves _ (ret _) => apply (preserves_ret_os R HR)
  | |- preserves _ (raise _) => apply (preserves_raise_os R HR)
  | |- preserves _ (os_Stat _) => apply (os_Stat_preserves R HR)
  | |- preserves _ (os_ReadFile _) => apply (os_ReadFile_preserves R HR)
  | |- preserves _ (os_WriteFile _ _ _) =>
      apply (os_WriteFile_preserves R HR)
  | |- preserves _ (os_Chmod _ _) => apply (os_Chmod_preserves R HR)
  | |- preserves _ (os_Symlink _ _) => apply (os_Symlink_preserves R HR)
  | |- preserves _ (os_MkdirAll _ _) => apply (os_MkdirAll_preserves R HR)
  | |- preserves _ (fmt_Println _) => apply (fmt_Println_preserves R HR)
  | |- preserves _ (tryStrip _ _) => apply tryStrip_R
  | |- preserves _ (isDynamicExecutable _) =>
      apply (preserves_pure R HR); apply isDynamicExecutable_pure
  | |- preserves _ findDynExec =>
      apply (preserves_pure R HR); apply findDynExec_pure
  | |- preserves _ (getLibs _) =>
      apply (preserves_pure R HR); apply getLibs_pure
  | |- preserves _ (bind _ _) => apply (preserves_bind_os R HR); [| intros ?]
  | |- preserves _ (if ?b then _ else _) => destruct b
  end.

Local Ltac pres := repeat pres_step.

Lemma copyFile_preserves src dst : preserves R (copyFile src dst).
Proof. unfold copyFile. pres. Qed.

Lemma copyLibs_preserves sharedLibDir libPaths :
  preserves R (copyLibs flags sharedLibDir libPaths).
Proof.
  induction libPaths as [| libPath rest IH]; simpl; [pres |].
  apply (preserves_bind_os R HR); [apply copyFile_preserves | intros _].
  apply (preserves_bind_os R HR); [apply tryStrip_R | intros _]. apply IH.
Qed.

Lemma installStatic_preserves binaryPath fileInfo :
  preserves R (installStatic flags binaryPath fileInfo).
Proof. unfold installStatic. pres; apply copyFile_preserves. Qed.

Lemma processDynamic_preserves binaryPath fileInfo :
  preserves R (processDynamic flags binaryPath fileInfo).
Proof.
  unfold processDynamic, installLauncher, linkBinary, makeSharedDirs,
    installSharedBinary, installLibraries, createSymlink.
  pres; first [apply copyFile_preserves | apply copyLibs_preserves].
Qed.

Lemma makeSharedDirs_preserves : preserves R (makeSharedDirs flags).
Proof. unfold makeSharedDirs. pres. Qed.

Lemma installSharedBinary_preserves binaryPath fileInfo :
  preserves R (installSharedBinary flags binaryPath fileInfo).
Proof. unfold installSharedBinary. pres; apply copyFile_preserves. Qed.

Lemma installLibraries_preserves binaryPath :
  preserves R (installLibraries flags binaryPath).
Proof. unfold installLibraries. pres; apply copyLibs_preserves. Qed.

Lemma processBinary_preserves binaryPath :
  preserves R (processBinary flags binaryPath).
Proof.
  unfold processBinary.
  pres; first [apply installStatic_preserves | apply processDynamic_preserves].
Qed.

End Composite.

(** The blocks that do not run [strip] respect every such relation. *)
Section Blocks.

Variable R : relation World.
Hypothesis HR : os_rel R.

Lemma installLauncher_preserves : preserves R (installLauncher flags).
Proof.
  unfold installLauncher, copyFile.
  apply (preserves_bind_os R HR);
    [apply (preserves_pure R HR); apply findDynExec_pure | intros l].
  apply (preserves_bind_os R HR); [| intros _; apply (os_Chmod_preserves R HR)].
  apply (preserves_bind_os R HR);
    [apply (os_ReadFile_preserves R HR) | intros d].
  apply (os_WriteFile_preserves R HR).
Qed.

Lemma linkBinary_preserves fileInfo : preserves R (linkBinary flags fileInfo).
Proof.
  unfold linkBinary, createSymlink.
  apply (preserves_bind_os R HR);
    [apply (os_MkdirAll_preserves R HR) | intros _].
  destruct (createLinks flags);
    [apply (os_Symlink_preserves R HR) | apply (preserves_ret_os R HR)].
Qed.

End Blocks.

(** *** The loop over the libraries, stripping disabled *)

Lemma copyLibs_kind sharedLibDir libPaths :
  strip flags = false ->
  preserves R_kind (copyLibs flags sharedLibDir libPaths).
Proof.
  intros Hstrip. apply copyLibs_preserves; [apply R_kind_os |].
  intros filePath. rewrite (tryStrip_off _ Hstrip).
  apply preserves_ret. apply R_kind_os.
Qed.

Lemma copyLibs_cons_Ok sharedLibDir libPath rest w w' :
  strip flags = false ->
  copyLibs flags sharedLibDir (libPath :: rest) w = (w', Ok tt) ->
  exists w1,
    copyFile libPath (GoPath.Join [sharedLibDir; GoPath.Base libPath]) w
    = (w1, Ok tt) /\
    copyLibs flags sharedLibDir rest w1 = (w', Ok tt).
Proof.
  intros Hstrip Hc. cbn [copyLibs] in Hc.
  apply bind_Ok_inv in Hc as (w1 & [] & Hcopy & Hc).
  rewrite (tryStrip_off _ Hstrip) in Hc.
  apply bind_Ok_inv in Hc as (? & [] & [= <-] & Hc). eauto.
Qed.

Lemma copyLibs_app_Ok sharedLibDir l1 l2 w w' :
  copyLibs flags sharedLibDir (l1 ++ l2) w = (w', Ok tt) ->
  exists w1,
    copyLibs flags sharedLibDir l1 w = (w1, Ok tt) /\
    copyLibs flags sharedLibDir l2 w1 = (w', Ok tt).
Proof.
  revert w. induction l1 as [| p l1 IH]; intros w Hc.
  - exists w. by split.
  - cbn [app copyLibs] in Hc |- *.
    apply bind_Ok_inv in Hc as (w1 & [] & Hcopy & Hc).
    apply bind_Ok_inv in Hc as (w2 & [] & Hstrip & Hc).
    destruct (IH _ Hc) as (w3 & H1 & H2). exists w3. split; [| done].
    by rewrite (bind_Ok _ _ _ _ _ Hcopy), (bind_Ok _ _ _ _ _ Hstrip).
Qed.

(** A file that no later library is copied to keeps its contents to the
    end of the loop. *)
Lemma copyLibs_keeps sharedLibDir l w w' c n :
  strip flags = false ->
  copyLibs flags sharedLibDir l w = (w', Ok tt) ->
  fs w !! c = Some n ->
  (forall q cq nq,
     q ∈ l ->
     resolve (fs w') cwd true (GoPath.Join [sharedLibDir; GoPath.Base q])
     = Found cq nq ->
     cq <> c) ->
  fs w' !! c = Some n.
Proof.
  intros Hstrip. revert w. induction l as [| q l IH]; intros w Hc Hn Hother.
  - by injection Hc as <-.
  - apply (copyLibs_cons_Ok _ _ _ _ _ Hstrip) in Hc as (w1 & Hcopy & Hc).
    apply copyFile_Ok in Hcopy as (data & _ & Hwrite).
    apply os_WriteFile_Ok in Hwrite as (cq & p & -> & Hr1 & _).
    pose proof (copyLibs_kind _ _ Hstrip _ _ _ Hc) as Hk.
    destruct (resolve_Found_later _ _ _ _ _ _ Hk Hr1) as (n' & _ & _ & Hr').
    assert (Hne : cq <> c) by (eapply Hother; [left | exact Hr']).
    apply (IH _ Hc).
    + unfold with_fs. cbn [fs]. by rewrite lookup_insert_ne.
    + intros q' cq' nq' Hin. apply Hother. by right.
Qed.

(** Whatever the flags, a binary's processing writes nothing on standard
    error and only adds to the trace. *)
Lemma processBinary_log binaryPath :
  preserves R_log (processBinary flags binaryPath).
Proof. apply processBinary_preserves; [apply R_log_os | apply tryStrip_log]. Qed.

End ProgramLemmas.

End OsLemmas.

(** ** The loop of [main] *)

Section Batch.

Context `{H : Host}.
Variable flags : Flags.

Lemma mainLoop_app l1 l2 w :
  mainLoop flags (l1 ++ l2) w = mainLoop flags l2 (mainLoop flags l1 w).
Proof.
  revert w. induction l1 as [| b l1 IH]; intros w; simpl; [done |].
  destruct (processBinary flags b w) as [w1 [u | e]]; apply IH.
Qed.

Lemma mainLoop_stderr l w :
  stderr (mainLoop flags l w)
  = (stderr w ++ failure_lines (outcomes flags l w))%list.
Proof.
  revert w. induction l as [| b l IH]; intros w; simpl.
  - by rewrite app_nil_r.
  - destruct (processBinary flags b w) as [w1 [u | e]] eqn:Hp;
      destruct (processBinary_log flags b _ _ _ Hp) as [He _];
      rewrite IH; simpl; rewrite He; [done |].
    by rewrite <- app_assoc.
Qed.

End Batch.

(** ** C9: no input *)

(** C9. With no positional argument, [main] prints the error message
    on standard output and exits with status 1; the file system after
    is the file system before, and no call that changes it was made. *)
Theorem main_no_arguments `{H : Host} (flags : Flags) (w : World) :
  snd (main flags [] w) = 1 /\
  fs (fst (main flags [] w)) = fs w /\
  trace (fst (main flags [] w)) = trace w /\
  stdout (fst (main flags [] w))
  = (stdout w ++ ["Error: Specify the ELF binary executable!"])%list /\
  stderr (fst (main flags [] w)) = stderr w.
Proof. repeat split. Qed.

(** ** C2: the exit status *)

(** C2, counterexample.  The one input [/bin/X] does not exist: its
    processing fails, and the exit status is 0 all the same. *)
Lemma exit_status_counterexample :
  outcomes (H := host_ok) (effective_flags defaultFlags) ["/bin/X"] world0
  = [("/bin/X", Err (PathError "stat" "/bin/X" ENOENT))] /\
  snd (main (H := host_ok) defaultFlags ["/bin/X"] world0) = 0.
Proof. split; vm_compute; reflexivity. Qed.

(** C2, amended.  For every batch that is not empty the exit status is
    0, whether or not the processing of a binary failed; a failure only
    adds its line to the log, in the order of the batch. *)
Theorem exit_status_nonempty `{H : Host} (flags : Flags) (b : string)
    (rest : list string) (w : World) :
  snd (main flags (b :: rest) w) = 0 /\
  stderr (fst (main flags (b :: rest) w))
  = (stderr w
       ++ failure_lines (outcomes (effective_flags flags) (b :: rest) w))%list.
Proof.
  split; [reflexivity |].
  unfold main. cbn [length Nat.eqb fst]. apply mainLoop_stderr.
Qed.

(** ** C3: the launcher is missing *)

(** C3, counterexample.  No [sharun] on the search path: the dynamic
    binary [/bin/C] fails, and the static [/bin/A] after it is processed
    all the same. *)
Lemma launcher_missing_counterexample :
  let w' := mainLoop (H := host_no_launcher) defaultFlags
              ["/bin/C"; "/bin/A"] world0 in
  outcomes (H := host_no_launcher) defaultFlags ["/bin/C"; "/bin/A"] world0
  = [("/bin/C",
      Err (Errorf ("sharun not found in PATH: "
                     +:+ "exec: sharun: executable file not found in $PATH")));
     ("/bin/A", Ok tt)] /\
  snd (os_ReadFile (H := host_no_launcher) "output/bin/A" w')
  = Ok [x7f; x45; x4c; x46; x0a].
Proof. split; vm_compute; reflexivity. Qed.

(** C3, amended.  When the launcher cannot be found while a dynamic
    binary is processed, that binary fails with the error of
    [findDynExec], after the output root was made, and the loop goes on:
    the rest of the batch is processed from the state the failed binary
    left, with its line in the log. *)
Theorem launcher_missing_fails_one_binary `{H : Host} (flags : Flags)
    (binary : string) (rest : list string) (w w1 : World)
    (fileInfo : FileInfo) (err : error) :
  os_Stat binary w = (w, Ok fileInfo) ->
  IsRegular fileInfo = true ->
  isDynamicExecutable binary w = (w, Ok true) ->
  os_MkdirAll (dstDirPath flags) o755 w = (w1, Ok tt) ->
  exec_LookPath "sharun" w1 = Err err ->
  let e := Errorf ("sharun not found in PATH: " +:+ Error err) in
  let w2 := fst (log_Printf (error_line binary e) w1) in
  processBinary flags binary w = (w1, Err e) /\
  mainLoop flags (binary :: rest) w = mainLoop flags rest w2 /\
  outcomes flags (binary :: rest) w
  = (binary, Err e) :: outcomes flags rest w2.
Proof.
  intros Hstat Hreg Hdyn Hmk Hlook e w2.
  assert (Hp : processBinary flags binary w = (w1, Err e)).
  { unfold processBinary.
    rewrite (bind_Ok _ _ _ _ _ Hstat), Hreg. cbn [negb].
    rewrite (bind_Ok _ _ _ _ _ Hdyn), (bind_Ok _ _ _ _ _ Hmk). cbn [negb].
    unfold processDynamic, installLauncher.
    apply bind_Err, bind_Err. unfold findDynExec. by rewrite Hlook. }
  split; [done |]. simpl. by rewrite Hp.
Qed.

Lemma launcher_missing_fails_one_binary_witness :
  let err :=
    ExternalError "exec: sharun: executable file not found in $PATH" in
  let e := Errorf ("sharun not found in PATH: " +:+ Error err) in
  let w1 := fst (os_MkdirAll (H := host_no_launcher) "output" o755 world0) in
  let w2 := fst (log_Printf (error_line "/bin/C" e) w1) in
  processBinary (H := host_no_launcher) defaultFlags "/bin/C" world0
  = (w1, Err e) /\
  mainLoop (H := host_no_launcher) defaultFlags ["/bin/C"; "/bin/A"] world0
  = mainLoop (H := host_no_launcher) defaultFlags ["/bin/A"] w2 /\
  outcomes (H := host_no_launcher) defaultFlags ["/bin/C"; "/bin/A"] world0
  = ("/bin/C", Err e)
      :: outcomes (H := host_no_launcher) defaultFlags ["/bin/A"] w2.
Proof.
  intros err e w1 w2.
  exact (launcher_missing_fails_one_binary (H := host_no_launcher)
           defaultFlags "/bin/C" ["/bin/A"] world0 w1
           (mkFileInfo "C" (File [x7f; x45; x4c; x46; x0c] 493)) err
           ltac:(vm_compute; reflexivity) ltac:(vm_compute; reflexivity)
           ltac:(vm_compute; reflexivity) ltac:(vm_compute; reflexivity)
           ltac:(vm_compute; reflexivity)).
Defined.

(** ** C6: the prober fails *)

(** C6.  When the run of [ldd] on a path fails, the classifier answers
    "static" and no error; if moreover the path is a regular file,
    [processBinary] makes the output root and goes into the branch for
    static binaries. *)
Theorem prober_failure_is_static `{H : Host} (flags : Flags)
    (binaryPath : string) (w : World) (output : string) (err : error) :
  ldd_CombinedOutput binaryPath w = (output, Some err) ->
  isDynamicExecutable binaryPath w = (w, Ok false) /\
  forall fileInfo,
    os_Stat binaryPath w = (w, Ok fileInfo) ->
    IsRegular fileInfo = true ->
    processBinary flags binaryPath w
    = (do _ <- os_MkdirAll (dstDirPath flags) o755;
       installStatic flags binaryPath fileInfo) w.
Proof.
  intros Hldd.
  assert (Hdyn : isDynamicExecutable binaryPath w = (w, Ok false)).
  { unfold isDynamicExecutable. by rewrite Hldd. }
  split; [done |]. intros fileInfo Hstat Hreg.
  unfold processBinary. rewrite (bind_Ok _ _ _ _ _ Hstat), Hreg. cbn [negb].
  by rewrite (bind_Ok _ _ _ _ _ Hdyn).
Qed.

Lemma prober_failure_is_static_witness :
  isDynamicExecutable (H := host_ok) "/bin/A" world0 = (world0, Ok false) /\
  snd (processBinary (H := host_ok) defaultFlags "/bin/A" world0) = Ok tt /\
  snd (os_ReadFile (H := host_ok) "output/bin/A"
         (fst (processBinary (H := host_ok) defaultFlags "/bin/A" world0)))
  = Ok [x7f; x45; x4c; x46; x0a].
Proof.
  destruct (prober_failure_is_static (H := host_ok) defaultFlags "/bin/A"
              world0 "not a dynamic executable"
              (ExternalError "exit status 1") eq_refl) as [Hdyn Hproc].
  split; [exact Hdyn |].
  rewrite (Hproc (mkFileInfo "A" (File [x7f; x45; x4c; x46; x0a] 493))
             eq_refl eq_refl).
  split; vm_compute; reflexivity.
Defined.

(** ** A static binary *)

(** X1.  With stripping disabled, when a static binary is processed,
    [bin/<name>] afterwards holds the bytes of the input and is a regular
    file of mode 0755.  The state before is arbitrary: whatever file was
    at [bin/<name>] is overwritten. *)
Theorem static_install `{H : Host} (flags : Flags) (binaryPath : string)
    (fileInfo : FileInfo) (w w' : World) :
  strip flags = false ->
  os_Stat binaryPath w = (w, Ok fileInfo) ->
  IsRegular fileInfo = true ->
  isDynamicExecutable binaryPath w = (w, Ok false) ->
  processBinary flags binaryPath w = (w', Ok tt) ->
  let dstBinaryPath := GoPath.Join [binDir flags; Name fileInfo] in
  exists input,
    os_ReadFile binaryPath w = (w, Ok input) /\
    os_ReadFile dstBinaryPath w' = (w', Ok input) /\
    os_Stat dstBinaryPath w'
    = (w', Ok (mkFileInfo (GoPath.basename dstBinaryPath) (File input o755))).
Proof.
  intros Hstrip Hstat Hreg Hdyn Hproc dstBinaryPath.
  unfold processBinary in Hproc.
  rewrite (bind_Ok _ _ _ _ _ Hstat), Hreg in Hproc. cbn [negb] in Hproc.
  rewrite (bind_Ok _ _ _ _ _ Hdyn) in Hproc.
  apply bind_Ok_inv in Hproc as (w1 & [] & Hmk1 & Hproc).
  cbn [negb] in Hproc.
  unfold installStatic in Hproc.
  apply bind_Ok_inv in Hproc as (w2 & [] & Hmk2 & Hproc).
  apply bind_Ok_inv in Hproc as (w3 & [] & Hcopy & Hproc).
  rewrite (tryStrip_off _ _ Hstrip) in Hproc.
  apply bind_Ok_inv in Hproc as (? & [] & [= <-] & Hproc).
  apply bind_Ok_inv in Hproc as (w4 & [] & Hchmod & Hproc).
  injection Hproc as <-.
  (* the input is read after the directories were made *)
  apply os_MkdirAll_sub in Hmk1. apply os_MkdirAll_sub in Hmk2.
  assert (Hsub : fs w ⊆ fs w2) by (by etransitivity).
  destruct (os_Stat_Ok _ _ _ _ Hstat) as (_ & _ & cA & HrA).
  unfold IsRegular in Hreg.
  destruct (fi_node fileInfo) as [dA pA | |] eqn:Hnode; try discriminate Hreg.
  pose proof (resolve_Found_sub _ _ _ _ _ _ Hsub HrA) as HrA2.
  apply copyFile_Ok in Hcopy as (input & Hread & Hwrite).
  rewrite (os_ReadFile_Found _ _ _ _ _ HrA2) in Hread. injection Hread as <-.
  exists dA. split; [exact (os_ReadFile_Found _ _ _ _ _ HrA) |].
  (* the copy, then the change of mode *)
  apply os_WriteFile_Ok in Hwrite as (c & p & _ & Hr3 & _).
  apply os_Chmod_Ok in Hchmod as (c' & n & n' & Hr3' & Hn & _ & Hr4).
  fold dstBinaryPath in Hr3, Hr3', Hr4.
  rewrite Hr3 in Hr3'. injection Hr3' as <- <-. subst n'.
  change (Z.land o755 o777) with o755 in Hr4.
  split.
  - refine (os_ReadFile_Found _ _ c _ o755 _). exact Hr4.
  - refine (os_Stat_Found _ _ c _ _). exact Hr4.
Qed.

Lemma static_install_witness :
  let w' := fst (processBinary (H := host_ok) defaultFlags "/bin/A"
                   world_stale_bin) in
  snd (os_ReadFile (H := host_ok) "output/bin/A" world_stale_bin)
  = Ok [x00; x01] /\
  exists input,
    os_ReadFile (H := host_ok) "/bin/A" world_stale_bin
    = (world_stale_bin, Ok input) /\
    os_ReadFile (H := host_ok) "output/bin/A" w' = (w', Ok input) /\
    os_Stat (H := host_ok) "output/bin/A" w'
    = (w', Ok (mkFileInfo "A" (File input o755))).
Proof.
  intros w'. split; [vm_compute; reflexivity |].
  exact (static_install (H := host_ok) defaultFlags "/bin/A"
           (mkFileInfo "A" (File [x7f; x45; x4c; x46; x0a] 493))
           world_stale_bin w'
           eq_refl ltac:(vm_compute; reflexivity) eq_refl
           ltac:(vm_compute; reflexivity) ltac:(vm_compute; reflexivity)).
Defined.

(** ** The link in [bin/] *)

(** X3.  A regular file is at [bin/<name>].  Then the call that makes
    the link fails with EEXIST and leaves the state as it is; with
    [-create-links] set the block that makes the link always fails and
    the file is afterwards what it was before; and no processing of a
    dynamic binary of that name succeeds, however far it gets: the file
    stays a regular file, no link takes its place. *)
Theorem symlink_no_overwrite `{H : Host} (flags : Flags)
    (binaryPath : string) (fileInfo existing : FileInfo) (w : World) :
  let symlinkPath := GoPath.Join [binDir flags; Name fileInfo] in
  os_Lstat symlinkPath w = (w, Ok existing) ->
  IsRegular existing = true ->
  createSymlink "../sharun" symlinkPath w
  = (w, Err (LinkError "symlink" "../sharun" symlinkPath EEXIST)) /\
  (createLinks flags = true ->
   (forall w' r,
      linkBinary flags fileInfo w = (w', r) ->
      is_Err r = true /\ os_Lstat symlinkPath w' = (w', Ok existing)) /\
   (forall w' r,
      processDynamic flags binaryPath fileInfo w = (w', r) ->
      is_Err r = true /\
      exists existing',
        os_Lstat symlinkPath w' = (w', Ok existing') /\
        IsRegular existing' = true)).
Proof.
  intros symlinkPath Hlstat Hreg.
  assert (Hlink : forall w0 fi0,
            os_Lstat symlinkPath w0 = (w0, Ok fi0) ->
            createSymlink "../sharun" symlinkPath w0
            = (w0, Err (LinkError "symlink" "../sharun" symlinkPath EEXIST))).
  { intros w0 fi0 Hl. destruct (os_Lstat_Ok _ _ _ _ Hl) as (_ & _ & c & Hr).
    unfold createSymlink, os_Symlink. cbn [bool_decide decide_rel].
    rewrite bool_decide_eq_false_2 by discriminate. by rewrite Hr. }
  assert (Hblock : forall w0 fi0 w' r,
            os_Lstat symlinkPath w0 = (w0, Ok fi0) ->
            createLinks flags = true ->
            linkBinary flags fileInfo w0 = (w', r) ->
            is_Err r = true /\ os_Lstat symlinkPath w' = (w', Ok fi0)).
  { intros w0 fi0 w' r Hl Hcl. unfold linkBinary. rewrite Hcl. unfold bind.
    destruct (os_MkdirAll (binDir flags) o755 w0) as [w1 [[] | e]] eqn:Hmk.
    all: pose proof (os_MkdirAll_sub _ _ _ _ _ Hmk) as Hsub.
    all: destruct (os_Lstat_Ok _ _ _ _ Hl) as (_ & Hname & c & Hr).
    all: pose proof (resolve_Found_sub _ _ _ _ _ _ Hsub Hr) as Hr1.
    all: assert (Hl1 : os_Lstat symlinkPath w1 = (w1, Ok fi0))
      by (rewrite (os_Lstat_Found _ _ _ _ Hr1), <- Hname; by destruct fi0).
    - fold symlinkPath. rewrite (Hlink _ _ Hl1). by intros [= <- <-].
    - by intros [= <- <-]. }
  split; [by eapply Hlink |]. intros Hcl.
  split; [intros w' r; by apply Hblock |].
  intros w' r. unfold processDynamic.
  destruct (installLauncher flags w) as [w1 [[] | e]] eqn:Hinst.
  all: pose proof (installLauncher_preserves flags R_kind R_kind_os _ _ _ Hinst)
    as Hk.
  all: destruct (os_Lstat_Ok _ _ _ _ Hlstat) as (_ & Hname & c & Hr).
  all: destruct (resolve_Found_later _ _ _ _ _ _ Hk Hr) as (n' & _ & Hsame & Hr1).
  all: pose proof (os_Lstat_Found _ _ _ _ Hr1) as Hl1.
  all: assert (Hreg1 : IsRegular (mkFileInfo (GoPath.basename symlinkPath) n')
                       = true)
    by (unfold IsRegular in *; cbn [fi_node];
        destruct (fi_node existing), n'; done).
  - rewrite (bind_Ok _ _ _ _ _ Hinst). unfold bind at 1.
    destruct (linkBinary flags fileInfo w1) as [w2 [[] | e]] eqn:Hlb;
      destruct (Hblock _ _ _ _ Hl1 Hcl Hlb) as [Herr Hl2]; [done |].
    intros [= <- <-]. eauto.
  - rewrite (bind_Err _ _ _ _ _ Hinst). intros [= <- <-]. eauto.
Qed.

Lemma symlink_no_overwrite_witness :
  let link_error :=
    LinkError "symlink" "../sharun" "output/bin/C" EEXIST in
  let r := processDynamic (H := host_ok) defaultFlags "/bin/C"
             (mkFileInfo "C" (File [x7f; x45; x4c; x46; x0c] 493))
             world_stale_bin in
  createSymlink (H := host_ok) "../sharun" "output/bin/C" world_stale_bin
  = (world_stale_bin, Err link_error) /\
  snd r = Err link_error /\
  os_Lstat (H := host_ok) "output/bin/C" (fst r)
  = (fst r, Ok (mkFileInfo "C" (File [x00; x02] 420))).
Proof.
  intros link_error r.
  destruct (symlink_no_overwrite (H := host_ok) defaultFlags "/bin/C"
              (mkFileInfo "C" (File [x7f; x45; x4c; x46; x0c] 493))
              (mkFileInfo "C" (File [x00; x02] 420)) world_stale_bin
              ltac:(vm_compute; reflexivity) eq_refl) as [Hlink _].
  split; [exact Hlink |]. split; vm_compute; reflexivity.
Defined.

(** ** Two libraries of one base name *)

(** The later copy wins.  [/bin/C] needs [/lib/libc.so.6], [/opt/bin/D]
    needs [/opt/lib/libc.so.6], and both are processed.  After the first
    the file [shared/lib/libc.so.6] holds the first library; after the
    batch it holds the second. *)
Lemma library_dedup_counterexample :
  let w1 := fst (processBinary (H := host_ok) defaultFlags "/bin/C" world0) in
  let w2 := mainLoop (H := host_ok) defaultFlags ["/bin/C"; "/opt/bin/D"]
              world0 in
  outcomes (H := host_ok) defaultFlags ["/bin/C"; "/opt/bin/D"] world0
  = [("/bin/C", Ok tt); ("/opt/bin/D", Ok tt)] /\
  snd (os_ReadFile (H := host_ok) "output/shared/lib/libc.so.6" w1)
  = Ok [x7f; x45; x4c; x46; x10] /\
  snd (os_ReadFile (H := host_ok) "output/shared/lib/libc.so.6" w2)
  = Ok [x7f; x45; x4c; x46; x20].
Proof. repeat split; vm_compute; reflexivity. Qed.

(** X4.  Libraries of one base name are copied to one path of
    [shared/lib/], and each copy overwrites what is there: when the loop
    over the libraries of a binary ends without error, stripping
    disabled, the file of a library holds the bytes that were read from
    it when it was copied, provided no library after it in the list was
    copied to the same file.  The state [w] before is arbitrary, so a
    copy that an earlier binary left there is overwritten. *)
Theorem library_copy_overwrites `{H : Host} (flags : Flags)
    (sharedLibDir libPath : string) (l1 l2 : list string) (w w' : World) :
  let dst := fun p => GoPath.Join [sharedLibDir; GoPath.Base p] in
  strip flags = false ->
  copyLibs flags sharedLibDir (l1 ++ libPath :: l2) w = (w', Ok tt) ->
  (forall q c n cq nq,
     q ∈ l2 ->
     resolve (fs w') cwd true (dst libPath) = Found c n ->
     resolve (fs w') cwd true (dst q) = Found cq nq ->
     cq <> c) ->
  (forall p, GoPath.Base p = GoPath.Base libPath -> dst p = dst libPath) /\
  exists w1 data,
    copyLibs flags sharedLibDir l1 w = (w1, Ok tt) /\
    os_ReadFile libPath w1 = (w1, Ok data) /\
    os_ReadFile (dst libPath) w' = (w', Ok data).
Proof.
  intros dst Hstrip Hc Hother.
  split; [intros p Hp; unfold dst; by rewrite Hp |].
  apply copyLibs_app_Ok in Hc as (w1 & Hc1 & Hc).
  apply (copyLibs_cons_Ok _ _ _ _ _ _ Hstrip) in Hc as (w2 & Hcopy & Hc).
  apply copyFile_Ok in Hcopy as (data & Hread & Hwrite).
  apply os_WriteFile_Ok in Hwrite as (c & p & _ & Hr2 & _).
  fold (dst libPath) in Hr2.
  pose proof (copyLibs_kind _ _ _ Hstrip _ _ _ Hc) as Hk.
  destruct (resolve_Found_later _ _ _ _ _ _ Hk Hr2) as (n' & Hn' & _ & Hr').
  exists w1, data. split; [done |]. split; [done |].
  assert (Hkeep : fs w' !! c = Some (File data p)).
  { apply (copyLibs_keeps _ _ _ _ _ _ _ Hstrip Hc).
    - exact (resolve_Found_lookup _ _ _ _ _ Hr2).
    - intros q cq nq Hin Hq. exact (Hother q c n' cq nq Hin Hr' Hq). }
  rewrite Hkeep in Hn'. injection Hn' as <-.
  exact (os_ReadFile_Found _ _ _ _ _ Hr').
Qed.

Lemma library_copy_overwrites_witness :
  let dst := fun p => GoPath.Join ["output/shared/lib"; GoPath.Base p] in
  let w' := fst (copyLibs (H := host_ok) defaultFlags "output/shared/lib"
                   ["/lib/libc.so.6"; "/lib/ld-linux.so.2"] world_after_D) in
  (snd (os_ReadFile (H := host_ok) "output/shared/lib/libc.so.6"
          world_after_D)
   = Ok [x7f; x45; x4c; x46; x20] /\
   snd (os_ReadFile (H := host_ok) "output/shared/lib/libc.so.6" w')
   = Ok [x7f; x45; x4c; x46; x10]) /\
  (forall p,
     GoPath.Base p = GoPath.Base "/lib/libc.so.6" ->
     dst p = dst "/lib/libc.so.6") /\
  exists w1 data,
    copyLibs (H := host_ok) defaultFlags "output/shared/lib" [] world_after_D
    = (w1, Ok tt) /\
    os_ReadFile (H := host_ok) "/lib/libc.so.6" w1 = (w1, Ok data) /\
    os_ReadFile (H := host_ok) (dst "/lib/libc.so.6") w' = (w', Ok data).
Proof.
  intros dst w'. split; [split; vm_compute; reflexivity |].
  apply (library_copy_overwrites (H := host_ok) defaultFlags
           "output/shared/lib" "/lib/libc.so.6" []
           ["/lib/ld-linux.so.2"] world_after_D w' eq_refl).
  - vm_compute; reflexivity.
  - intros q c n cq nq Hin%list_elem_of_singleton Hp Hq. subst q.
    vm_compute in Hp, Hq. injection Hp as <- _. injection Hq as <- _.
    discriminate.
Defined.

(** * Further properties of the code *)

(** ** The text that [isDynamicExecutable] looks for *)




















(** ** More on [copyFile] *)

Section CopyFile.

Context `{H : Host}.

(** X13.  A failed copy changes nothing: [copyFile] fails when the source
    cannot be read or the destination cannot be opened, and in both
    cases no call that changes the file system was made. *)
Theorem copyFile_failure_changes_nothing (src dst : string) (w : World) :
  is_Err (snd (copyFile src dst w)) = true -> fst (copyFile src dst w) = w.
Proof.
  unfold copyFile, bind.
  destruct (os_ReadFile src w) as [w1 [data | e]] eqn:Hr;
    pose proof (os_ReadFile_pure _ _ _ _ Hr) as ->; [| done].
  destruct (os_WriteFile dst data o644 w) as [w2 [[] | e]] eqn:Hw; [done |].
  intros _. exact (os_WriteFile_Err _ _ _ _ _ _ Hw).
Qed.

(** X11.  After a successful copy both names read the bytes that were copied:
    the destination because it was written, the source because it is
    either untouched or the very file that was written. *)
Theorem copyFile_round_trip (src dst : string) (w : World) :
  snd (copyFile src dst w) = Ok tt ->
  exists data,
    snd (os_ReadFile src w) = Ok data /\
    snd (os_ReadFile dst (fst (copyFile src dst w))) = Ok data /\
    snd (os_ReadFile src (fst (copyFile src dst w))) = Ok data.
Proof.
  destruct (copyFile src dst w) as [w' [[] | e]] eqn:Hc; [| done]. intros _.
  cbn [fst snd].
  apply copyFile_Ok in Hc as (data & Hread & Hwrite).
  exists data. rewrite Hread. split; [done |].
  pose proof (os_WriteFile_update _ _ _ _ _ _ Hwrite) as Hk%one_update_kind.
  apply os_ReadFile_Ok in Hread as (_ & cs & ps & Hrs).
  apply os_WriteFile_Ok in Hwrite as (c & p & Hw' & Hrd & _).
  split; [by rewrite (os_ReadFile_Found _ _ _ _ _ Hrd) |].
  destruct (resolve_Found_later _ _ _ _ _ _ Hk Hrs) as (n' & Hn' & _ & Hrs').
  rewrite Hw' in Hn'. unfold with_fs in Hn'. cbn [fs] in Hn'.
  destruct (decide (c = cs)) as [-> | Hne].
  - rewrite lookup_insert_eq in Hn'. injection Hn' as <-.
    by rewrite (os_ReadFile_Found _ _ _ _ _ Hrs').
  - rewrite lookup_insert_ne in Hn' by done.
    rewrite (resolve_Found_lookup _ _ _ _ _ Hrs) in Hn'. injection Hn' as <-.
    by rewrite (os_ReadFile_Found _ _ _ _ _ Hrs').
Qed.

(** X12.  The mode of the copy is not the source's: a destination that did
    not exist is created with mode 0644 less the umask, which has no
    execute bit whatever the umask is; one that existed keeps the mode
    it had. *)
Theorem copyFile_mode (src dst : string) (w : World) :
  snd (copyFile src dst w) = Ok tt ->
  exists after,
    snd (os_Stat dst (fst (copyFile src dst w))) = Ok after /\
    IsRegular after = true /\
    match snd (os_Stat dst w) with
    | Ok before => Perm after = Perm before
    | Err _ =>
        Perm after = creation_mode o644 /\ Z.land (Perm after) o111 = 0
    end.
Proof.
  destruct (copyFile src dst w) as [w' [[] | e]] eqn:Hc; [| done]. intros _.
  cbn [fst snd].
  apply copyFile_Ok in Hc as (data & _ & Hwrite).
  apply os_WriteFile_Ok in Hwrite as (c & p & _ & Hrd & Hold).
  rewrite (os_Stat_Found _ _ _ _ Hrd). cbn [snd].
  eexists. split; [reflexivity |]. split; [reflexivity |].
  destruct Hold as [(d & Hr) | (Hr & ->)].
  - by rewrite (os_Stat_Found _ _ _ _ Hr).
  - unfold os_Stat, stat_with. rewrite Hr. cbn [snd Perm fi_node].
    split; [done |]. unfold creation_mode.
    rewrite (Z.land_comm o644), <- Z.land_assoc.
    change (Z.land o644 o111) with 0. apply Z.land_0_r.
Qed.

(** X14.  [copyFile] writes through a symbolic link: a link at the
    destination is still that link after a successful copy. *)
Theorem copyFile_keeps_link (src dst : string) (w : World)
    (link : FileInfo) (target : string) :
  snd (copyFile src dst w) = Ok tt ->
  snd (os_Lstat dst w) = Ok link ->
  fi_node link = Symlink target ->
  snd (os_Lstat dst (fst (copyFile src dst w))) = Ok link.
Proof.
  destruct (copyFile src dst w) as [w' [[] | e]] eqn:Hc; [| done].
  intros _ Hl Hnode. cbn [fst].
  pose proof (copyFile_preserves R_kind R_kind_os src dst _ _ _ Hc) as Hk.
  destruct (os_Lstat dst w) as [w0 [fi | e]] eqn:Hls; [| done].
  injection Hl as ->.
  destruct (os_Lstat_Ok _ _ _ _ Hls) as (_ & Hname & c & Hr).
  destruct (resolve_Found_later _ _ _ _ _ _ Hk Hr) as (n' & _ & Hsame & Hr').
  rewrite Hnode in Hsame. destruct n'; try done. simpl in Hsame. subst.
  rewrite (os_Lstat_Found _ _ _ _ Hr'). cbn [snd]. f_equal.
  destruct link; cbn in *. congruence.
Qed.

End CopyFile.

(** ** More on [isDynamicExecutable], [processBinary] and [main] *)

Section Processing.

Context `{H : Host}.
Variable flags : Flags.

Lemma isDynamicExecutable_Ok (binaryPath : string) (w : World) :
  exists isDynamic, isDynamicExecutable binaryPath w = (w, Ok isDynamic).
Proof.
  unfold isDynamicExecutable.
  destruct (ldd_CombinedOutput binaryPath w) as [output [err |]]; [eauto |].
  destruct (_ || _); eauto.
Qed.

(** X16.  The classifier never returns an error and never changes the state:
    the check [if err != nil] after its call in [processBinary] cannot
    fire. *)
Theorem isDynamicExecutable_never_fails (binaryPath : string) (w : World) :
  fst (isDynamicExecutable binaryPath w) = w /\
  is_Err (snd (isDynamicExecutable binaryPath w)) = false.
Proof. by destruct (isDynamicExecutable_Ok binaryPath w) as [b ->]. Qed.

(** X10.  An input that is missing, or is no regular file once links are
    followed, fails before anything is done: the state stays as it is,
    not even the output root is made. *)
Theorem input_error_changes_nothing (binaryPath : string) (w : World) :
  (forall fileInfo,
     snd (os_Stat binaryPath w) = Ok fileInfo -> IsRegular fileInfo = false) ->
  fst (processBinary flags binaryPath w) = w /\
  snd (processBinary flags binaryPath w)
  = match snd (os_Stat binaryPath w) with
    | Err err => Err err
    | Ok _ =>
        Err (Errorf ("skipped: " +:+ binaryPath +:+ " is not a regular file"))
    end.
Proof.
  intros Hbad. unfold processBinary, bind.
  destruct (os_Stat binaryPath w) as [w1 [fileInfo | err]] eqn:Hs;
    pose proof (stat_with_pure _ _ _ _ _ _ Hs) as ->; cbn [snd] in *.
  - by rewrite (Hbad _ eq_refl).
  - done.
Qed.

(** With [-one-dir=false] and an empty [-dst-dir] no input can be
    processed: making the output root fails, nothing is written. *)
Lemma os_MkdirAll_empty perm w :
  os_MkdirAll "" perm w = (w, Err (PathError "mkdir" "" ENOENT)).
Proof. reflexivity. Qed.

Lemma processBinary_empty_dst binaryPath w :
  dstDirPath flags = "" ->
  fst (processBinary flags binaryPath w) = w /\
  is_Err (snd (processBinary flags binaryPath w)) = true.
Proof.
  intros Hdst. unfold processBinary, bind.
  destruct (os_Stat binaryPath w) as [w1 [fileInfo | err]] eqn:Hs;
    pose proof (stat_with_pure _ _ _ _ _ _ Hs) as ->; [| done].
  destruct (IsRegular fileInfo); [| done]. cbn [negb].
  destruct (isDynamicExecutable_Ok binaryPath w) as [b ->].
  by rewrite Hdst, os_MkdirAll_empty.
Qed.

Lemma mainLoop_empty_dst l w :
  dstDirPath flags = "" ->
  fs (mainLoop flags l w) = fs w /\
  trace (mainLoop flags l w) = trace w /\
  Forall (fun o => is_Err (snd o) = true) (outcomes flags l w).
Proof.
  intros Hdst. revert w. induction l as [| b l IH]; intros w.
  - by repeat split.
  - cbn [mainLoop outcomes].
    destruct (processBinary_empty_dst b w Hdst) as [Hw Herr].
    destruct (processBinary flags b w) as [w1 [[] | e]]; [done |].
    cbn [fst] in Hw. subst w1.
    destruct (IH (fst (log_Printf (error_line b e) w))) as (Hfs & Htr & Hall).
    repeat split; [by rewrite Hfs | by rewrite Htr |].
    constructor; [done | exact Hall].
Qed.

Lemma mainLoop_kind l w :
  strip flags = false -> kind_le (fs w) (fs (mainLoop flags l w)).
Proof.
  intros Hstrip. revert w. induction l as [| b l IH]; intros w.
  - apply kind_le_refl.
  - cbn [mainLoop].
    assert (Hp : preserves R_kind (processBinary flags b)).
    { apply processBinary_preserves; [apply R_kind_os |]. intros filePath.
      rewrite (tryStrip_off _ _ Hstrip). apply preserves_ret. apply R_kind_os. }
    destruct (processBinary flags b w) as [w1 [[] | e]] eqn:Hb.
    + eapply kind_le_trans; [exact (Hp _ _ _ Hb) | apply IH].
    + eapply kind_le_trans; [exact (Hp _ _ _ Hb) |].
      exact (IH (fst (log_Printf (error_line b e) w1))).
Qed.

End Processing.

(** X20.  With [-one-dir=false] and an empty [-dst-dir], whatever the inputs,
    the run changes nothing in the file system and every input fails. *)
Theorem empty_destination_writes_nothing `{H : Host} (flags : Flags)
    (binaryList : list string) (w : World) :
  oneDir flags = false ->
  dstDirPath flags = "" ->
  fs (fst (main flags binaryList w)) = fs w /\
  trace (fst (main flags binaryList w)) = trace w /\
  Forall (fun o => is_Err (snd o) = true)
    (outcomes (effective_flags flags) binaryList w).
Proof.
  intros Hone Hdst.
  assert (Heff : effective_flags flags = flags)
    by (unfold effective_flags; by rewrite Hone).
  rewrite Heff. unfold main.
  destruct binaryList as [| b l]; [by repeat split |].
  cbn [length Nat.eqb fst]. rewrite Heff. by apply mainLoop_empty_dst.
Qed.

(** X18.  A batch is its parts in sequence: running [main] on [l1 ++ l2] ends
    in the state that running it on [l1] and then on [l2] ends in. *)
Theorem main_batch_composes `{H : Host} (flags : Flags)
    (l1 l2 : list string) (w : World) :
  l1 <> [] -> l2 <> [] ->
  main flags (l1 ++ l2) w = main flags l2 (fst (main flags l1 w)).
Proof.
  intros H1 H2. unfold main.
  destruct l1 as [| a l1]; [done |]. destruct l2 as [| b l2]; [done |].
  cbn [app length Nat.eqb fst]. f_equal.
  exact (mainLoop_app (effective_flags flags) (a :: l1) (b :: l2) w).
Qed.

(** X19.  With stripping disabled a run removes nothing: every node of the
    file system is there afterwards, a file still a file, a directory
    still a directory, a link still a link to the same target. *)
Theorem main_removes_nothing `{H : Host} (flags : Flags)
    (binaryList : list string) (w : World) (c : cpath) (n : node) :
  strip flags = false ->
  fs w !! c = Some n ->
  exists n',
    fs (fst (main flags binaryList w)) !! c = Some n' /\ same_kind n n'.
Proof.
  intros Hstrip Hc. unfold main.
  destruct binaryList as [| b l]; cbn [length Nat.eqb fst].
  - exists n. split; [done | apply same_kind_refl].
  - apply (mainLoop_kind (effective_flags flags) (b :: l) w); [| done].
    unfold effective_flags. by destruct (_ && _).
Qed.


(** ** More on the processing of dynamic binaries *)

Section Dynamic.

Context `{H : Host}.
Variable flags : Flags.

Lemma tryStrip_kind filePath :
  strip flags = false -> preserves R_kind (tryStrip flags filePath).
Proof.
  intros Hstrip. rewrite (tryStrip_off _ _ Hstrip).
  apply preserves_ret. apply R_kind_os.
Qed.

(** What a successful [installLauncher] did. *)
Lemma installLauncher_Ok w w' :
  installLauncher flags w = (w', Ok tt) ->
  exists launcher data c,
    exec_LookPath "sharun" w = Ok launcher /\
    os_ReadFile launcher w = (w, Ok data) /\
    trace w' = (trace w ++ [EvWriteFile c data; EvChmod c o755])%list /\
    resolve (fs w') cwd true (dstDynExec flags) = Found c (File data o755).
Proof.
  unfold installLauncher. intros Hi.
  apply bind_Ok_inv in Hi as (w0 & launcher & Hfind & Hi).
  unfold findDynExec in Hfind.
  destruct (exec_LookPath "sharun" w) as [l | e] eqn:Hlook; [| done].
  injection Hfind as <- <-.
  apply bind_Ok_inv in Hi as (w1 & [] & Hcopy & Hchmod).
  apply copyFile_Ok in Hcopy as (data & Hread & Hwrite).
  apply os_WriteFile_Ok in Hwrite as (c & p & Hw1 & Hr1 & _).
  apply os_Chmod_Ok in Hchmod as (c' & n & n' & Hr1' & Hn & Hw' & Hr').
  rewrite Hr1 in Hr1'. injection Hr1' as <- <-. subst n'.
  change (Z.land o755 o777) with o755 in *.
  exists l, data, c. repeat split; try done.
  rewrite Hw', Hw1. unfold with_fs. cbn [trace]. by rewrite <- app_assoc.
Qed.

(** The blocks of [processDynamic] after the launcher, run to the end. *)
Lemma processDynamic_Ok binaryPath fileInfo w w' :
  processDynamic flags binaryPath fileInfo w = (w', Ok tt) ->
  exists w1 w2 w3 w4 w5,
    installLauncher flags w = (w1, Ok tt) /\
    linkBinary flags fileInfo w1 = (w2, Ok tt) /\
    makeSharedDirs flags w2 = (w3, Ok tt) /\
    installSharedBinary flags binaryPath fileInfo w3 = (w4, Ok tt) /\
    installLibraries flags binaryPath w4 = (w5, Ok tt) /\
    fs w' = fs w5 /\ trace w' = trace w5.
Proof.
  unfold processDynamic. intros Hp.
  apply bind_Ok_inv in Hp as (w1 & [] & H1 & Hp).
  apply bind_Ok_inv in Hp as (w2 & [] & H2 & Hp).
  apply bind_Ok_inv in Hp as (w3 & [] & H3 & Hp).
  apply bind_Ok_inv in Hp as (w4 & [] & H4 & Hp).
  apply bind_Ok_inv in Hp as (w5 & [] & H5 & Hp).
  injection Hp as <-. exists w1, w2, w3, w4, w5. by repeat split.
Qed.

(** After [linkBinary] with [-create-links], the link is there. *)
Lemma linkBinary_Ok fileInfo w w' :
  createLinks flags = true ->
  linkBinary flags fileInfo w = (w', Ok tt) ->
  exists c,
    resolve (fs w') cwd false (GoPath.Join [binDir flags; Name fileInfo])
    = Found c (Symlink "../sharun").
Proof.
  intros Hcl. unfold linkBinary. rewrite Hcl. intros Hl.
  apply bind_Ok_inv in Hl as (w1 & [] & _ & Hs).
  apply os_Symlink_Ok in Hs as (c & _ & _ & Hr). eauto.
Qed.

Lemma processDynamic_makes_link binaryPath fileInfo w w' :
  strip flags = false ->
  createLinks flags = true ->
  processDynamic flags binaryPath fileInfo w = (w', Ok tt) ->
  exists c,
    resolve (fs w') cwd false (GoPath.Join [binDir flags; Name fileInfo])
    = Found c (Symlink "../sharun").
Proof.
  intros Hstrip Hcl Hp.
  apply processDynamic_Ok in Hp
    as (w1 & w2 & w3 & w4 & w5 & _ & H2 & H3 & H4 & H5 & Hfs & _).
  destruct (linkBinary_Ok _ _ _ Hcl H2) as (c & Hr).
  assert (Hk : kind_le (fs w2) (fs w')).
  { rewrite Hfs.
    eapply kind_le_trans;
      [exact (makeSharedDirs_preserves flags R_kind R_kind_os _ _ _ H3) |].
    eapply kind_le_trans;
      [exact (installSharedBinary_preserves flags R_kind R_kind_os
                (fun p => tryStrip_kind p Hstrip) _ _ _ _ _ H4) |].
    exact (installLibraries_preserves flags R_kind R_kind_os
             (fun p => tryStrip_kind p Hstrip) _ _ _ _ H5). }
  destruct (resolve_Found_later _ _ _ _ _ _ Hk Hr) as (n' & _ & Hsame & Hr').
  destruct n'; try done. simpl in Hsame. subst. eauto.
Qed.

(** When anything at all is at [bin/<name>], a dynamic binary of that
    name cannot be processed with [-create-links]. *)
Lemma processDynamic_link_exists binaryPath fileInfo existing w :
  createLinks flags = true ->
  snd (os_Lstat (GoPath.Join [binDir flags; Name fileInfo]) w) = Ok existing ->
  is_Err (snd (processDynamic flags binaryPath fileInfo w)) = true.
Proof.
  intros Hcl Hl.
  destruct (os_Lstat _ w) as [w0 [fi | e]] eqn:Hls; [| done].
  destruct (os_Lstat_Ok _ _ _ _ Hls) as (_ & _ & c & Hr).
  unfold processDynamic.
  destruct (installLauncher flags w) as [w1 [[] | e]] eqn:Hinst;
    [| by rewrite (bind_Err _ _ _ _ _ Hinst)].
  rewrite (bind_Ok _ _ _ _ _ Hinst).
  pose proof (installLauncher_preserves flags R_kind R_kind_os _ _ _ Hinst)
    as Hk.
  destruct (resolve_Found_later _ _ _ _ _ _ Hk Hr) as (n1 & _ & _ & Hr1).
  assert (Hlb : is_Err (snd (linkBinary flags fileInfo w1)) = true).
  { unfold linkBinary. rewrite Hcl.
    destruct (os_MkdirAll (binDir flags) o755 w1) as [w2 [[] | e]] eqn:Hmk;
      [| by rewrite (bind_Err _ _ _ _ _ Hmk)].
    rewrite (bind_Ok _ _ _ _ _ Hmk).
    pose proof (os_MkdirAll_sub _ _ _ _ _ Hmk) as Hsub.
    pose proof (resolve_Found_sub _ _ _ _ _ _ Hsub Hr1) as Hr2.
    unfold createSymlink, os_Symlink.
    rewrite bool_decide_eq_false_2 by discriminate. by rewrite Hr2. }
  destruct (linkBinary flags fileInfo w1) as [w2 [[] | e]] eqn:Hlink;
    [done | by rewrite (bind_Err _ _ _ _ _ Hlink)].
Qed.

End Dynamic.

Section DynamicTheorems.

Context `{H : Host}.
Variable flags : Flags.

Lemma pair_eta {A B} (p : A * B) : p = (fst p, snd p).
Proof. by destruct p. Qed.

Lemma run_Ok {A} (c : M A) w a : snd (c w) = Ok a -> c w = (fst (c w), Ok a).
Proof. intros Hs. rewrite <- Hs. apply pair_eta. Qed.


(** X7.  With stripping disabled and [-create-links] set, after a dynamic
    binary was processed [bin/<name>] is a symbolic link whose target is
    [../sharun]. *)
Theorem dynamic_link_made (binaryPath : string) (fileInfo : FileInfo)
    (w : World) :
  strip flags = false ->
  createLinks flags = true ->
  snd (processDynamic flags binaryPath fileInfo w) = Ok tt ->
  let symlinkPath := GoPath.Join [binDir flags; Name fileInfo] in
  snd (os_Lstat symlinkPath (fst (processDynamic flags binaryPath fileInfo w)))
  = Ok (mkFileInfo (GoPath.basename symlinkPath) (Symlink "../sharun")).
Proof.
  intros Hstrip Hcl Hp%run_Ok symlinkPath.
  destruct (processDynamic_makes_link _ _ _ _ _ Hstrip Hcl Hp) as (c & Hr).
  fold symlinkPath in Hr. by rewrite (os_Lstat_Found _ _ _ _ Hr).
Qed.

(** X8.  The tool cannot be run twice on a dynamic binary: with stripping
    disabled and [-create-links] set, once a dynamic binary was
    processed, processing a dynamic binary of the same base name in the
    state it left always fails (the link is in the way). *)
Theorem dynamic_rerun_fails (binaryPath binaryPath2 : string)
    (fileInfo fileInfo2 : FileInfo) (w : World) :
  strip flags = false ->
  createLinks flags = true ->
  snd (processDynamic flags binaryPath fileInfo w) = Ok tt ->
  Name fileInfo2 = Name fileInfo ->
  is_Err (snd (processDynamic flags binaryPath2 fileInfo2
                 (fst (processDynamic flags binaryPath fileInfo w)))) = true.
Proof.
  intros Hstrip Hcl Hp%run_Ok Hname.
  destruct (processDynamic_makes_link _ _ _ _ _ Hstrip Hcl Hp) as (c & Hr).
  eapply processDynamic_link_exists; [done |].
  rewrite Hname. by rewrite (os_Lstat_Found _ _ _ _ Hr).
Qed.

End DynamicTheorems.

Section StripAndLibraries.

Context `{H : Host}.
Variable flags : Flags.




(** Every library that the loop has copied is there at the end. *)
Lemma copyLibs_all_present sharedLibDir l w w' :
  strip flags = false ->
  copyLibs flags sharedLibDir l w = (w', Ok tt) ->
  forall p, p ∈ l ->
    exists c d m,
      resolve (fs w') cwd true (GoPath.Join [sharedLibDir; GoPath.Base p])
      = Found c (File d m).
Proof.
  intros Hstrip. revert w. induction l as [| q l IH]; intros w Hc p Hin.
  - by apply elem_of_nil in Hin.
  - apply (copyLibs_cons_Ok _ _ _ _ _ _ Hstrip) in Hc as (w1 & Hcopy & Hc).
    apply elem_of_cons in Hin as [-> | Hin]; [| by eapply IH].
    apply copyFile_Ok in Hcopy as (data & _ & Hwrite).
    apply os_WriteFile_Ok in Hwrite as (c & m & _ & Hr & _).
    pose proof (copyLibs_kind _ _ _ Hstrip _ _ _ Hc) as Hk.
    destruct (resolve_Found_later _ _ _ _ _ _ Hk Hr) as (n' & _ & Hsame & Hr').
    destruct n'; try done. eauto.
Qed.

(** X5.  The closure is complete: with stripping disabled, when the block
    that installs the libraries ends without error, every path that
    [ldd.FList] reported has a regular file under its base name in
    [shared/lib/]. *)
Theorem libraries_all_installed (binaryPath : string) (w : World) :
  strip flags = false ->
  snd (installLibraries flags binaryPath w) = Ok tt ->
  exists libPaths,
    ldd_FList binaryPath w = Ok libPaths /\
    forall libPath, libPath ∈ libPaths ->
      exists installed,
        snd (os_Stat (GoPath.Join [sharedLibDir flags; GoPath.Base libPath])
               (fst (installLibraries flags binaryPath w)))
        = Ok installed /\
        IsRegular installed = true.
Proof.
  intros Hstrip Hi%run_Ok. set (w' := fst _) in *.
  unfold installLibraries in Hi.
  apply bind_Ok_inv in Hi as (w0 & libPaths & Hget & Hcopy).
  unfold getLibs in Hget.
  destruct (ldd_FList binaryPath w) as [l | e] eqn:Hl; [| done].
  injection Hget as <- <-. exists l. split; [done |].
  intros libPath Hin.
  destruct (copyLibs_all_present _ _ _ _ Hstrip Hcopy _ Hin) as (c & d & m & Hr).
  rewrite (os_Stat_Found _ _ _ _ Hr). eauto.
Qed.

End StripAndLibraries.

(** ** The further properties on the example host *)


Lemma copyFile_failure_changes_nothing_witness :
  fst (copyFile (H := host_ok) "/bin/X" "X.copy" world0) = world0.
Proof.
  exact (copyFile_failure_changes_nothing (H := host_ok) "/bin/X" "X.copy"
           world0 ltac:(vm_compute; reflexivity)).
Defined.

Lemma copyFile_round_trip_witness :
  exists data,
    snd (os_ReadFile (H := host_ok) "/bin/A" world0) = Ok data /\
    snd (os_ReadFile (H := host_ok) "A.copy"
           (fst (copyFile (H := host_ok) "/bin/A" "A.copy" world0)))
    = Ok data /\
    snd (os_ReadFile (H := host_ok) "/bin/A"
           (fst (copyFile (H := host_ok) "/bin/A" "A.copy" world0)))
    = Ok data.
Proof.
  exact (copyFile_round_trip (H := host_ok) "/bin/A" "A.copy" world0
           ltac:(vm_compute; reflexivity)).
Defined.

Lemma copyFile_mode_witness :
  snd (os_Stat (H := host_ok) "/bin/A" world0)
  = Ok (mkFileInfo "A" (File [x7f; x45; x4c; x46; x0a] o755)) /\
  snd (os_Stat (H := host_ok) "A.copy"
         (fst (copyFile (H := host_ok) "/bin/A" "A.copy" world0)))
  = Ok (mkFileInfo "A.copy" (File [x7f; x45; x4c; x46; x0a] o644)) /\
  exists after,
    snd (os_Stat (H := host_ok) "A.copy"
           (fst (copyFile (H := host_ok) "/bin/A" "A.copy" world0)))
    = Ok after /\
    IsRegular after = true /\
    match snd (os_Stat (H := host_ok) "A.copy" world0) with
    | Ok before => Perm after = Perm before
    | Err _ =>
        Perm after = creation_mode (H := host_ok) o644 /\
        Z.land (Perm after) o111 = 0
    end.
Proof.
  split; [vm_compute; reflexivity |]. split; [vm_compute; reflexivity |].
  exact (copyFile_mode (H := host_ok) "/bin/A" "A.copy" world0
           ltac:(vm_compute; reflexivity)).
Defined.

Lemma copyFile_keeps_link_witness :
  let w' := fst (copyFile (H := host_ok) "/bin/A" "output/bin/C"
                   world_after_C) in
  snd (os_Lstat (H := host_ok) "output/bin/C" w')
  = Ok (mkFileInfo "C" (Symlink "../sharun")) /\
  snd (os_ReadFile (H := host_ok) "output/sharun" w')
  = Ok [x7f; x45; x4c; x46; x0a].
Proof.
  intros w'. split; [| vm_compute; reflexivity].
  exact (copyFile_keeps_link (H := host_ok) "/bin/A" "output/bin/C"
           world_after_C (mkFileInfo "C" (Symlink "../sharun")) "../sharun"
           ltac:(vm_compute; reflexivity) ltac:(vm_compute; reflexivity)
           eq_refl).
Defined.

Lemma input_error_changes_nothing_witness :
  (fst (processBinary (H := host_ok) defaultFlags "/bin/X" world0) = world0 /\
   snd (processBinary (H := host_ok) defaultFlags "/bin/X" world0)
   = match snd (os_Stat (H := host_ok) "/bin/X" world0) with
     | Err err => Err err
     | Ok _ => Err (Errorf ("skipped: " +:+ "/bin/X"
                              +:+ " is not a regular file"))
     end) /\
  (fst (processBinary (H := host_ok) defaultFlags "/bin" world0) = world0 /\
   snd (processBinary (H := host_ok) defaultFlags "/bin" world0)
   = match snd (os_Stat (H := host_ok) "/bin" world0) with
     | Err err => Err err
     | Ok _ => Err (Errorf ("skipped: " +:+ "/bin"
                              +:+ " is not a regular file"))
     end).
Proof.
  split.
  - apply (input_error_changes_nothing (H := host_ok) defaultFlags "/bin/X"
             world0).
    intros fileInfo Hs. vm_compute in Hs. discriminate.
  - apply (input_error_changes_nothing (H := host_ok) defaultFlags "/bin"
             world0).
    intros fileInfo Hs. vm_compute in Hs. by injection Hs as <-.
Defined.

Lemma empty_destination_writes_nothing_witness :
  fs (fst (main (H := host_ok) flags_no_dst ["/bin/A"; "/bin/C"] world0))
  = fs world0 /\
  trace (fst (main (H := host_ok) flags_no_dst ["/bin/A"; "/bin/C"] world0))
  = trace world0 /\
  Forall (fun o => is_Err (snd o) = true)
    (outcomes (H := host_ok) (effective_flags flags_no_dst)
       ["/bin/A"; "/bin/C"] world0).
Proof.
  exact (empty_destination_writes_nothing (H := host_ok) flags_no_dst
           ["/bin/A"; "/bin/C"] world0 eq_refl eq_refl).
Defined.

Lemma main_batch_composes_witness :
  main (H := host_ok) defaultFlags (["/bin/A"; "/bin/X"] ++ ["/bin/C"]) world0
  = main (H := host_ok) defaultFlags ["/bin/C"]
      (fst (main (H := host_ok) defaultFlags ["/bin/A"; "/bin/X"] world0)).
Proof.
  exact (main_batch_composes (H := host_ok) defaultFlags
           ["/bin/A"; "/bin/X"] ["/bin/C"] world0
           ltac:(discriminate) ltac:(discriminate)).
Defined.

Lemma main_removes_nothing_witness :
  exists n',
    fs (fst (main (H := host_ok) defaultFlags ["/bin/C"; "/opt/bin/D"]
               world_stale_bin)) !! key "/work/output/bin/C" = Some n' /\
    same_kind (File [x00; x02] o644) n'.
Proof.
  exact (main_removes_nothing (H := host_ok) defaultFlags
           ["/bin/C"; "/opt/bin/D"] world_stale_bin
           (key "/work/output/bin/C") (File [x00; x02] o644)
           eq_refl ltac:(vm_compute; reflexivity)).
Defined.

Lemma dynamic_link_made_witness :
  let fileInfo := mkFileInfo "C" (File [x7f; x45; x4c; x46; x0c] o755) in
  let symlinkPath := GoPath.Join [binDir defaultFlags; Name fileInfo] in
  symlinkPath = "output/bin/C" /\
  snd (os_Lstat (H := host_ok) symlinkPath
         (fst (processDynamic (H := host_ok) defaultFlags "/bin/C" fileInfo
                 world_after_D)))
  = Ok (mkFileInfo (GoPath.basename symlinkPath) (Symlink "../sharun")).
Proof.
  intros fileInfo symlinkPath. split; [reflexivity |].
  exact (dynamic_link_made (H := host_ok) defaultFlags "/bin/C" fileInfo
           world_after_D eq_refl eq_refl ltac:(vm_compute; reflexivity)).
Defined.

Lemma dynamic_rerun_fails_witness :
  let fileInfo := mkFileInfo "C" (File [x7f; x45; x4c; x46; x0c] o755) in
  let fileInfo2 := mkFileInfo "C" (File [x7f; x45; x4c; x46; x1c] o755) in
  is_Err (snd (processDynamic (H := host_ok) defaultFlags "/opt/bin/C"
                 fileInfo2
                 (fst (processDynamic (H := host_ok) defaultFlags "/bin/C"
                         fileInfo world_after_D)))) = true.
Proof.
  intros fileInfo fileInfo2.
  exact (dynamic_rerun_fails (H := host_ok) defaultFlags "/bin/C"
           "/opt/bin/C" fileInfo fileInfo2 world_after_D eq_refl eq_refl
           ltac:(vm_compute; reflexivity) eq_refl).
Defined.


Lemma libraries_all_installed_witness :
  exists libPaths,
    ldd_FList (Host := host_ok) "/bin/C" world_after_D = Ok libPaths /\
    forall libPath, libPath ∈ libPaths ->
      exists installed,
        snd (os_Stat (H := host_ok)
               (GoPath.Join [sharedLibDir defaultFlags; GoPath.Base libPath])
               (fst (installLibraries (H := host_ok) defaultFlags "/bin/C"
                       world_after_D)))
        = Ok installed /\
        IsRegular installed = true.
Proof.
  exact (libraries_all_installed (H := host_ok) defaultFlags "/bin/C"
           world_after_D eq_refl ltac:(vm_compute; reflexivity)).
Defined.
Section Outputs.

Context `{H : Host}.
Variable flags : Flags.

(** X9.  With stripping disabled, after a dynamic binary was processed the
    launcher at [<dst>/sharun] and the copy at [shared/bin/<name>] are
    regular files. *)
Theorem dynamic_outputs_present (binaryPath : string) (fileInfo : FileInfo)
    (w : World) :
  strip flags = false ->
  snd (processDynamic flags binaryPath fileInfo w) = Ok tt ->
  let w' := fst (processDynamic flags binaryPath fileInfo w) in
  exists launcher shared,
    snd (os_Stat (dstDynExec flags) w') = Ok launcher /\
    IsRegular launcher = true /\
    snd (os_Stat (GoPath.Join [sharedBinDir flags; Name fileInfo]) w')
    = Ok shared /\
    IsRegular shared = true.
Proof.
  intros Hstrip Hp%run_Ok w'. fold w' in Hp.
  apply processDynamic_Ok in Hp
    as (w1 & w2 & w3 & w4 & w5 & H1 & H2 & H3 & H4 & H5 & Hfs & _).
  pose proof (fun p => tryStrip_kind flags p Hstrip) as Hts.
  pose proof (linkBinary_preserves flags R_kind R_kind_os _ _ _ _ H2) as K2.
  pose proof (makeSharedDirs_preserves flags R_kind R_kind_os _ _ _ H3) as K3.
  pose proof (installSharedBinary_preserves flags R_kind R_kind_os Hts
                _ _ _ _ _ H4) as K4.
  pose proof (installLibraries_preserves flags R_kind R_kind_os Hts
                _ _ _ _ H5) as K5.
  unfold R_kind in *. rewrite <- Hfs in K5.
  destruct (installLauncher_Ok _ _ _ H1) as (l & data & c & _ & _ & _ & Hr1).
  assert (K15 : kind_le (fs w1) (fs w'))
    by (do 3 (eapply kind_le_trans; [eassumption |]); done).
  destruct (resolve_Found_later _ _ _ _ _ _ K15 Hr1) as (n1 & _ & Hs1 & Hr1').
  unfold installSharedBinary in H4.
  apply bind_Ok_inv in H4 as (w3' & [] & Hcopy & Hts4).
  rewrite (tryStrip_off _ _ Hstrip) in Hts4. injection Hts4 as ->.
  apply copyFile_Ok in Hcopy as (d & _ & Hwrite).
  apply os_WriteFile_Ok in Hwrite as (c2 & p2 & _ & Hr4 & _).
  assert (K3' : kind_le (fs w4) (fs w')) by exact K5.
  destruct (resolve_Found_later _ _ _ _ _ _ K3' Hr4) as (n2 & _ & Hs2 & Hr4').
  exists (mkFileInfo (GoPath.basename (dstDynExec flags)) n1),
    (mkFileInfo
       (GoPath.basename (GoPath.Join [sharedBinDir flags; Name fileInfo])) n2).
  rewrite (os_Stat_Found _ _ _ _ Hr1'), (os_Stat_Found _ _ _ _ Hr4').
  repeat split; unfold IsRegular; cbn [fi_node]; by destruct n1, n2.
Qed.


End Outputs.

Lemma dynamic_outputs_present_witness :
  let fileInfo := mkFileInfo "C" (File [x7f; x45; x4c; x46; x0c] o755) in
  let w' := fst (processDynamic (H := host_ok) defaultFlags "/bin/C" fileInfo
                   world_after_D) in
  exists launcher shared,
    snd (os_Stat (H := host_ok) (dstDynExec defaultFlags) w') = Ok launcher /\
    IsRegular launcher = true /\
    snd (os_Stat (H := host_ok)
           (GoPath.Join [sharedBinDir defaultFlags; Name fileInfo]) w')
    = Ok shared /\
    IsRegular shared = true.
Proof.
  intros fileInfo.
  exact (dynamic_outputs_present (H := host_ok) defaultFlags "/bin/C"
           fileInfo world_after_D eq_refl ltac:(vm_compute; reflexivity)).
Defined.

